(** * Amazon Nova Canvas Streamlit front-end: request building and response handling

    A shallow embedding of [amazon_image_streamlit_app.py].  The script is
    re-executed from top to bottom on every user interaction; one such rerun is
    modelled by [run_script], a computation in a small state-and-exception monad
    that threads the Streamlit session state and the random generator and logs
    the observable effects (messages, the Bedrock call, the save call, the
    rendered images) in a trace.

    The layout calls of the script (titles, headers, sub-headers, the spinner,
    the sidebar footer and the [st.image] previews of uploaded files) are not
    part of the model: it describes the reruns in which every uploaded file
    opens as an image, so that its preview is drawn and the script goes on.  *)

From Stdlib Require Import List String Ascii ZArith NArith Lia Bool.
From Stdlib.Strings Require Import Byte.
From Stdlib Require Import PrimFloat DecimalString.
Import ListNotations.
Open Scope string_scope.
Open Scope Z_scope.

(** ** Python values *)

(** The objects that occur in the request: strings, ints, floats, lists and
    insertion-ordered dicts with string keys. *)
#[local] Set Warnings "-register-all".
Inductive value : Type :=
| VNone
| VInt (n : Z)
| VFloat (x : float)
| VStr (s : string)
| VList (l : list value)
| VDict (d : list (string * value)).

Definition dict := list (string * value).

Fixpoint dict_get (k : string) (d : dict) : option value :=
  match d with
  | [] => None
  | (k', v) :: d' => if String.eqb k k' then Some v else dict_get k d'
  end.

(** [k in d] *)
Definition dict_in (k : string) (d : dict) : bool :=
  match dict_get k d with Some _ => true | None => false end.

(** [d[k] = v]: an existing key keeps its position, a new key goes last. *)
Fixpoint dict_set (k : string) (v : value) (d : dict) : dict :=
  match d with
  | [] => [(k, v)]
  | (k', v') :: d' =>
      if String.eqb k k' then (k', v) :: d' else (k', v') :: dict_set k v d'
  end.

Definition dict_keys (d : dict) : list string := map fst d.

(** [d[outer][k] = v] where [d[outer]] is a dict (mutated in place through the
    reference held by [d]); anything else is left alone. *)
Definition dict_set_in (outer k : string) (v : value) (d : dict) : dict :=
  match dict_get outer d with
  | Some (VDict inner) => dict_set outer (VDict (dict_set k v inner)) d
  | _ => d
  end.

(** Reading a sub-dict of a request. *)
Definition subdict (k : string) (p : value) : option dict :=
  match p with
  | VDict d => match dict_get k d with Some (VDict b) => Some b | _ => None end
  | _ => None
  end.

Definition top_keys (p : value) : list string :=
  match p with VDict d => dict_keys d | _ => [] end.

Definition string_of_nat (n : nat) : string :=
  NilEmpty.string_of_uint (Nat.to_uint n).

(** Truth value of a Python [str]. *)
Definition str_truthy (s : string) : bool :=
  match s with EmptyString => false | _ => true end.

(** ** [base64.b64encode(...).decode("utf-8")] *)

Definition b64_alphabet : string :=
  "ABCDEFGHIJKLMNOPQRSTUVWXYZabcdefghijklmnopqrstuvwxyz0123456789+/".

Definition b64_char (n : N) : ascii :=
  match String.get (N.to_nat n) b64_alphabet with
  | Some c => c
  | None => "="%char
  end.

Fixpoint b64encode (bs : list byte) : string :=
  match bs with
  | [] => ""
  | [a] =>
      let n := (Byte.to_N a * 65536)%N in
      String (b64_char (n / 262144)%N)
        (String (b64_char ((n / 4096) mod 64)%N) "==")
  | [a; b] =>
      let n := (Byte.to_N a * 65536 + Byte.to_N b * 256)%N in
      String (b64_char (n / 262144)%N)
        (String (b64_char ((n / 4096) mod 64)%N)
           (String (b64_char ((n / 64) mod 64)%N) "="))
  | a :: b :: c :: rest =>
      let n := (Byte.to_N a * 65536 + Byte.to_N b * 256 + Byte.to_N c)%N in
      String (b64_char (n / 262144)%N)
        (String (b64_char ((n / 4096) mod 64)%N)
           (String (b64_char ((n / 64) mod 64)%N)
              (String (b64_char (n mod 64)%N) (b64encode rest))))
  end.

(** An uploaded file, as returned by [st.file_uploader]. *)
Record UploadedFile : Type := { file_name : string; getvalue : list byte }.

(** [encode_image_to_base64] (lines 27-31). *)
Definition encode_image_to_base64 (image_file : option UploadedFile) : option string :=
  match image_file with
  | Some f => Some (b64encode (getvalue f))
  | None => None
  end.

Definition opt_str (o : option string) : value :=
  match o with Some s => VStr s | None => VNone end.

(** ** The environment of one rerun *)

(** [datetime.now()] and its rendering by [strftime("%Y-%m-%d_%H-%M-%S")]. *)
Record datetime : Type :=
  { year : nat; month : nat; day : nat; hour : nat; minute : nat; second : nat }.

Definition pad2 (n : nat) : string :=
  if Nat.ltb n 10 then "0" ++ string_of_nat n else string_of_nat n.

Definition strftime (t : datetime) : string :=
  string_of_nat (year t) ++ "-" ++ pad2 (month t) ++ "-" ++ pad2 (day t) ++ "_"
    ++ pad2 (hour t) ++ "-" ++ pad2 (minute t) ++ "-" ++ pad2 (second t).

(** Modelled from the spec: [BedrockImageGenerator.generate_images] of
    [amazon_image_gen], which is not part of the sources.  Its response is a
    structure containing either a sequence of encoded-image strings (the key
    ["images"] is present) or an error indication (the key is absent). *)
Record response : Type := { images : option (list string) }.

(** What a rerun reads from outside: the clock, the raw output of the random
    generator (the n-th number it produces during this rerun) and the remote
    service. *)
Record world : Type :=
  { now : datetime;
    entropy : nat -> Z;
    generate_images : value -> response }.

(** The values of the widgets at this rerun (lines 61-80 and the widgets of the
    five feature pages).  A button is [true] in the rerun triggered by its click. *)
Record widgets : Type :=
  { feature : string;
    quality : string;
    width : Z;
    height : Z;
    cfg_scale : float;
    num_images : Z;
    use_random_seed : bool;
    seed : Z;
    text_prompt : string;
    negative_prompt : string;
    color1 : string; color2 : string; color3 : string; color4 : string; color5 : string;
    reference_image : option UploadedFile;
    conditioning_image : option UploadedFile;
    control_mode : string;
    control_strength : float;
    ref_image1 : option UploadedFile;
    ref_image2 : option UploadedFile;
    ref_image3 : option UploadedFile;
    similarity_strength : float;
    operation_type : string;
    source_image : option UploadedFile;
    mask_prompt : string;
    outpainting_mode : string;
    generate_button : bool;
    replace_button : bool;
    remove_button : bool }.

(** [st.session_state]: a key is either absent or bound. *)
Record session_state : Type :=
  { output_directory : option string;
    generated_images : option (list string) }.

Definition empty_session : session_state :=
  {| output_directory := None; generated_images := None |}.

(** The decoding side of the display: [base64.b64decode], [Image.open] and
    [image.save(buf, format="PNG")] are library code, each of the first two may
    raise. *)
Class Imaging : Type :=
  { image : Type;
    b64decode : string -> option (list byte);
    Image_open : list byte -> option image;
    Image_save_png : image -> list byte }.

Inductive exn : Type :=
| AttributeError | IndexError | BinasciiError | UnidentifiedImageError.

Inductive outcome (A : Type) : Type :=
| Done (a : A)
| Raised (e : exn).
Arguments Done {A} a.
Arguments Raised {A} e.

Section Script.

Context `{Imaging}.

(** Observable effects of a rerun, in program order. *)
Inductive event : Type :=
| StInfo (msg : string)
| StError (msg : string)
| StSuccess (msg : string)
| NewGenerator (dir : string)
| GenerateImages (inference_params : value)
| SaveBase64Images (imgs : list string) (dir : string) (prefix : string)
| StColumns (n : nat)
| StImage (column : nat) (img : image)
| StDownloadButton (column : nat) (label : string) (data : list byte) (name : string).

(** ** The monad of the script *)

Record machine : Type :=
  { session : session_state; draws : nat; trace : list event }.

Definition M (A : Type) : Type := machine -> outcome A * machine.

Definition ret {A} (a : A) : M A := fun m => (Done a, m).

Definition bind {A B} (c : M A) (k : A -> M B) : M B :=
  fun m => match c m with
           | (Done a, m') => k a m'
           | (Raised e, m') => (Raised e, m')
           end.

Definition raise {A} (e : exn) : M A := fun m => (Raised e, m).

Definition emit (e : event) : M unit :=
  fun m => (Done tt, {| session := session m; draws := draws m; trace := trace m ++ [e] |}).

Definition when (b : bool) (c : M unit) : M unit := if b then c else ret tt.

Definition get_session : M session_state := fun m => (Done (session m), m).

Definition put_session (s : session_state) : M unit :=
  fun m => (Done tt, {| session := s; draws := draws m; trace := trace m |}).

Notation "x <- c ;; k" := (bind c (fun x => k))
  (at level 61, c at next level, right associativity).
Notation "c ;;; k" := (bind c (fun _ => k))
  (at level 61, right associativity).

Definition of_option {A} (e : exn) (o : option A) : M A :=
  match o with Some a => ret a | None => raise e end.

(** [st.session_state.output_directory = d] *)
Definition set_output_directory (d : string) : M unit :=
  s <- get_session ;;
  put_session {| output_directory := Some d; generated_images := generated_images s |}.

(** [st.session_state.generated_images = l] *)
Definition set_generated_images (l : list string) : M unit :=
  s <- get_session ;;
  put_session {| output_directory := output_directory s; generated_images := Some l |}.

(** Reading an attribute of the session state that is not bound raises. *)
Definition read_output_directory : M string :=
  s <- get_session ;; of_option AttributeError (output_directory s).

Definition read_generated_images : M (list string) :=
  s <- get_session ;; of_option AttributeError (generated_images s).

(** ** [display_generated_images] (lines 34-53) *)

(** The body of the [for i, image_base64 in enumerate(images_list)] loop, from
    index [i] on; [cols] is the list returned by [st.columns]. *)
Fixpoint display_loop (cols : list nat) (i : nat) (images_list : list string) : M unit :=
  match images_list with
  | [] => ret tt
  | image_base64 :: rest =>
      col <- of_option IndexError (nth_error cols (i mod 3)) ;;
      image_bytes <- of_option BinasciiError (b64decode image_base64) ;;
      img <- of_option UnidentifiedImageError (Image_open image_bytes) ;;
      emit (StImage col img) ;;;
      emit (StDownloadButton col
              ("Download Image " ++ string_of_nat (i + 1))
              (Image_save_png img)
              ("generated_image_" ++ string_of_nat (i + 1) ++ ".png")) ;;;
      display_loop cols (S i) rest
  end.

Definition display_generated_images (images_list : list string) : M unit :=
  match images_list with
  | [] => ret tt
  | _ =>
      let n := Nat.min 3 (List.length images_list) in
      emit (StColumns n) ;;;
      display_loop (seq 0 n) 0 images_list
  end.

(** [if st.session_state.generated_images: display_generated_images(...)] *)
Definition show_generated_images : M unit :=
  l <- read_generated_images ;;
  match l with
  | [] => ret tt
  | _ => display_generated_images l
  end.

(** Modelled from the spec: [file_utils.save_base64_images], which is not part
    of the sources.  The sink decodes the images in order and writes one file
    per image under the directory, named [{prefix}_{index+1}] where [index] is
    the 0-based position; one blob that does not decode fails the whole batch.
    The result lists the files written (path without extension, content). *)
Fixpoint save_from (index : nat) (imgs : list string) (dir prefix : string)
  : option (list (string * list byte)) :=
  match imgs with
  | [] => Some []
  | s :: rest =>
      match b64decode s, save_from (S index) rest dir prefix with
      | Some b, Some files =>
          Some ((dir ++ "/" ++ prefix ++ "_" ++ string_of_nat (index + 1), b) :: files)
      | _, _ => None
      end
  end.

Definition save_base64_images (imgs : list string) (dir prefix : string)
  : option (list (string * list byte)) :=
  save_from 0 imgs dir prefix.

Section Rerun.

Variable w : world.
Variable ui : widgets.

(** [random.randint(a, b)]: the next raw number of the generator, brought into
    the closed range [a..b]. *)
Definition randint (a b : Z) : M Z :=
  fun m => (Done (a + entropy w (draws m) mod (b - a + 1)),
            {| session := session m; draws := S (draws m); trace := trace m |}).

(** Lines 19-24. *)
Definition init_session_state : M unit :=
  s <- get_session ;;
  match output_directory s with
  | None =>
      let generation_id := strftime (now w) in
      set_output_directory ("output/" ++ generation_id)
  | Some _ => ret tt
  end ;;;
  s <- get_session ;;
  match generated_images s with
  | None => set_generated_images []
  | Some _ => ret tt
  end.

(** [randint(0, 858993459) if use_random_seed else seed] *)
Definition resolve_seed : M Z :=
  if use_random_seed ui then randint 0 858993459 else ret (seed ui).

(** The [imageGenerationConfig] literal of lines 107-114, 175-182, 240-247 and
    323-330. *)
Definition image_generation_config (seed_value : Z) : value :=
  VDict [("numberOfImages", VInt (num_images ui));
         ("quality", VStr (quality ui));
         ("width", VInt (width ui));
         ("height", VInt (height ui));
         ("cfgScale", VFloat (cfg_scale ui));
         ("seed", VInt seed_value)].

(** The [imageGenerationConfig] literal of lines 403-408. *)
Definition outpainting_generation_config (seed_value : Z) : value :=
  VDict [("numberOfImages", VInt (num_images ui));
         ("quality", VStr (quality ui));
         ("cfgScale", VFloat (cfg_scale ui));
         ("seed", VInt seed_value)].

(** [generator = BedrockImageGenerator(output_directory=...)] followed by
    [response = generator.generate_images(inference_params)]. *)
Definition call_generator (inference_params : dict) : M response :=
  dir <- read_output_directory ;;
  emit (NewGenerator dir) ;;;
  emit (GenerateImages (VDict inference_params)) ;;;
  ret (generate_images w (VDict inference_params)).

(** The [if "images" in response: ... else: ...] block that follows every call.
    The call of the sink is logged when it is made; a batch that the sink
    cannot decode ends the rerun there, with the exception of [base64.b64decode]. *)
Definition handle_response (r : response)
    (success : list string -> string) (failure : string) : M unit :=
  match images r with
  | Some imgs =>
      set_generated_images imgs ;;;
      dir <- read_output_directory ;;
      emit (SaveBase64Images imgs dir "image") ;;;
      _ <- of_option BinasciiError (save_base64_images imgs dir "image") ;;
      emit (StSuccess (success imgs))
  | None => emit (StError failure)
  end.

Definition generated_msg (imgs : list string) : string :=
  "Generated " ++ string_of_nat (List.length imgs) ++ " image(s)!".

Definition generate_failed : string :=
  "Failed to generate images. Check the logs for details.".

(** ** The five feature pages *)

(** The [inference_params] literal of lines 101-115. *)
Definition inference_params_simple (seed_value : Z) : dict :=
  [("taskType", VStr "TEXT_IMAGE");
   ("textToImageParams",
     VDict [("text", VStr (text_prompt ui));
            ("negativeText", VStr (negative_prompt ui))]);
   ("imageGenerationConfig", image_generation_config seed_value)].

(** Lines 83-132. *)
Definition simple_image_generation : M unit :=
  when (generate_button ui)
    (seed_value <- resolve_seed ;;
     let inference_params := inference_params_simple seed_value in
     response <- call_generator inference_params ;;
     handle_response response generated_msg generate_failed) ;;;
  show_generated_images.

(** The [inference_params] literal of lines 169-183. *)
Definition inference_params_color (seed_value : Z) : dict :=
  [("taskType", VStr "COLOR_GUIDED_GENERATION");
   ("colorGuidedGenerationParams",
     VDict [("text", VStr (text_prompt ui));
            ("colors", VList [VStr (color1 ui); VStr (color2 ui); VStr (color3 ui);
                              VStr (color4 ui); VStr (color5 ui)])]);
   ("imageGenerationConfig", image_generation_config seed_value)].

(** Line 161: [encode_image_to_base64(reference_image) if reference_image else None]. *)
Definition reference_image_base64 : option string :=
  match reference_image ui with
  | Some _ => encode_image_to_base64 (reference_image ui)
  | None => None
  end.

(** Lines 185-187: [if reference_image_base64: ...["referenceImage"] = ...]. *)
Definition add_reference_image (inference_params : dict) : dict :=
  match reference_image_base64 with
  | Some b =>
      if str_truthy b
      then dict_set_in "colorGuidedGenerationParams" "referenceImage" (VStr b)
             inference_params
      else inference_params
  | None => inference_params
  end.

(** Lines 134-204. *)
Definition color_guided_generation : M unit :=
  when (generate_button ui)
    (seed_value <- resolve_seed ;;
     let inference_params := inference_params_color seed_value in
     let inference_params := add_reference_image inference_params in
     response <- call_generator inference_params ;;
     handle_response response generated_msg generate_failed) ;;;
  show_generated_images.

(** The [inference_params] literal of lines 232-248. *)
Definition inference_params_guided (seed_value : Z) : dict :=
  let conditioning_image_base64 := encode_image_to_base64 (conditioning_image ui) in
  [("taskType", VStr "TEXT_IMAGE");
   ("textToImageParams",
     VDict [("text", VStr (text_prompt ui));
            ("conditionImage", opt_str conditioning_image_base64);
            ("controlMode", VStr (control_mode ui));
            ("controlStrength", VFloat (control_strength ui))]);
   ("imageGenerationConfig", image_generation_config seed_value)].

(** Lines 206-267. *)
Definition image_guided_generation : M unit :=
  match conditioning_image ui with
  | Some _ =>
      when (generate_button ui)
        (seed_value <- resolve_seed ;;
         let inference_params := inference_params_guided seed_value in
         response <- call_generator inference_params ;;
         handle_response response generated_msg generate_failed) ;;;
      show_generated_images
  | None => emit (StInfo "Please upload a conditioning image to continue")
  end.

(** The loop of lines 310-313. *)
Definition encode_references (imgs : list (option UploadedFile)) : list value :=
  flat_map (fun img => match img with
                       | Some _ => [opt_str (encode_image_to_base64 img)]
                       | None => []
                       end) imgs.

(** The [inference_params] literal of lines 316-331. *)
Definition inference_params_variation (seed_value : Z) : dict :=
  let images := encode_references [ref_image1 ui; ref_image2 ui; ref_image3 ui] in
  [("taskType", VStr "IMAGE_VARIATION");
   ("imageVariationParams",
     VDict [("images", VList images);
            ("text", VStr (text_prompt ui));
            ("similarityStrength", VFloat (similarity_strength ui))]);
   ("imageGenerationConfig", image_generation_config seed_value)].

(** Lines 333-335: [if negative_prompt: ...["negativeText"] = negative_prompt]. *)
Definition add_negative_text (inference_params : dict) : dict :=
  if str_truthy (negative_prompt ui)
  then dict_set_in "imageVariationParams" "negativeText"
         (VStr (negative_prompt ui)) inference_params
  else inference_params.

Definition is_some {A} (o : option A) : bool :=
  match o with Some _ => true | None => false end.

(** Lines 269-352. *)
Definition instant_customization : M unit :=
  emit (StInfo "Upload 1-3 reference images of the same subject in different poses/angles") ;;;
  when (generate_button ui && is_some (ref_image1 ui))
    (seed_value <- resolve_seed ;;
     let inference_params := inference_params_variation seed_value in
     let inference_params := add_negative_text inference_params in
     response <- call_generator inference_params ;;
     handle_response response generated_msg generate_failed) ;;;
  show_generated_images.

(** The [inference_params] literal of lines 395-409. *)
Definition inference_params_outpainting (seed_value : Z) : dict :=
  let source_image_base64 := encode_image_to_base64 (source_image ui) in
  [("taskType", VStr "OUTPAINTING");
   ("outPaintingParams",
     VDict [("image", opt_str source_image_base64);
            ("text", VStr (text_prompt ui));
            ("maskPrompt", VStr (mask_prompt ui));
            ("outPaintingMode", VStr (outpainting_mode ui))]);
   ("imageGenerationConfig", outpainting_generation_config seed_value)].

(** The [inference_params] literal of lines 431-436. *)
Definition inference_params_removal : dict :=
  let source_image_base64 := encode_image_to_base64 (source_image ui) in
  [("taskType", VStr "BACKGROUND_REMOVAL");
   ("backgroundRemovalParams",
     VDict [("image", opt_str source_image_base64)])].

(** Lines 354-455. *)
Definition background_replacement : M unit :=
  match source_image ui with
  | Some _ =>
      (if String.eqb (operation_type ui) "Background Replacement"
       then
         when (replace_button ui)
           (seed_value <- resolve_seed ;;
            let inference_params := inference_params_outpainting seed_value in
            response <- call_generator inference_params ;;
            handle_response response generated_msg generate_failed)
       else
         when (remove_button ui)
           (let inference_params := inference_params_removal in
            response <- call_generator inference_params ;;
            handle_response response
              (fun _ => "Background removed successfully!")
              "Failed to remove background. Check the logs for details.")) ;;;
      show_generated_images
  | None => emit (StInfo "Please upload a source image to continue")
  end.

(** ** One rerun of the script *)

Definition script : M unit :=
  init_session_state ;;;
  (* line 80: the default of the seed input is drawn on every rerun *)
  _ <- randint 0 858993459 ;;
  if String.eqb (feature ui) "Simple Image Generation" then simple_image_generation
  else if String.eqb (feature ui) "Color-Guided Generation" then color_guided_generation
  else if String.eqb (feature ui) "Image-Guided Generation" then image_guided_generation
  else if String.eqb (feature ui) "Instant Customization" then instant_customization
  else if String.eqb (feature ui) "Background Replacement" then background_replacement
  else ret tt.

Definition run_script (ss : session_state) : outcome unit * machine :=
  script {| session := ss; draws := 0; trace := [] |}.

End Rerun.

(** ** A UI session: reruns of the script over one session state *)

Fixpoint run_session (inputs : list (world * widgets)) (ss : session_state)
  : list (outcome unit * machine) :=
  match inputs with
  | [] => []
  | (w, ui) :: rest =>
      let r := run_script w ui ss in
      r :: run_session rest (session (snd r))
  end.

End Script.

(** ** Reading a trace *)

Section Traces.

Context `{Imaging}.

(** The requests sent to the service during a rerun. *)
Definition calls (t : list event) : list value :=
  flat_map (fun e => match e with GenerateImages p => [p] | _ => [] end) t.

Definition is_display_event (e : event) : bool :=
  match e with
  | StColumns _ | StImage _ _ | StDownloadButton _ _ _ _ => true
  | _ => false
  end.

Definition task_type (p : value) : option string :=
  match p with
  | VDict d => match dict_get "taskType" d with Some (VStr s) => Some s | _ => None end
  | _ => None
  end.

End Traces.


(** ** What the display renders *)

Section Rendering.
Context `{Imaging}.

Definition extend (m : machine) (d : list event) : machine :=
  {| session := session m; draws := draws m; trace := trace m ++ d |}.

Definition blank : machine :=
  {| session := empty_session; draws := 0; trace := [] |}.

(** What [display_generated_images] renders for a list, and how it ends. *)
Definition displayed (l : list string) : list event :=
  trace (snd (display_generated_images l blank)).

Definition display_outcome (l : list string) : outcome unit :=
  fst (display_generated_images l blank).

(** [base64.b64decode] followed by [Image.open]. *)
Definition decode_image (s : string) : option image :=
  match b64decode s with
  | Some b => Image_open b
  | None => None
  end.

Fixpoint decode_all (l : list string) : option (list image) :=
  match l with
  | [] => Some []
  | s :: rest =>
      match decode_image s, decode_all rest with
      | Some img, Some imgs => Some (img :: imgs)
      | _, _ => None
      end
  end.

(** The two widgets rendered for the image at 0-based position [i]. *)
Definition tile (i : nat) (img : image) : list event :=
  [StImage (i mod 3) img;
   StDownloadButton (i mod 3)
     ("Download Image " ++ string_of_nat (i + 1))
     (Image_save_png img)
     ("generated_image_" ++ string_of_nat (i + 1) ++ ".png")].

Fixpoint tiles (i : nat) (imgs : list image) : list event :=
  match imgs with
  | [] => []
  | img :: rest => tile i img ++ tiles (S i) rest
  end.

(** The images among the rendered widgets, in rendering order. *)
Definition rendered_images (t : list event) : list image :=
  flat_map (fun e => match e with StImage _ img => [img] | _ => [] end) t.

(** The file names offered for download, in rendering order. *)
Definition download_names (t : list event) : list string :=
  flat_map (fun e => match e with StDownloadButton _ _ _ n => [n] | _ => [] end) t.

(** The calls of the persistence sink, in program order. *)
Definition saves (t : list event) : list (list string * string * string) :=
  flat_map (fun e => match e with
                     | SaveBase64Images l d p => [(l, d, p)]
                     | _ => []
                     end) t.

(** The directories handed to [BedrockImageGenerator] and to the sink. *)
Definition directories (t : list event) : list string :=
  flat_map (fun e => match e with
                     | NewGenerator d => [d]
                     | SaveBase64Images _ d _ => [d]
                     | _ => []
                     end) t.

Definition is_error (e : event) : bool :=
  match e with StError _ => true | _ => false end.

(** A rerun that ends in an exception or shows an error message. *)
Definition signals_error (r : outcome unit * machine) : bool :=
  match fst r with
  | Raised _ => true
  | Done _ => existsb is_error (trace (snd r))
  end.

End Rendering.

(** ** Modes, and a rerun summarised

    The request, the messages and the final state of a rerun as functions of
    its inputs; [run_script_summary] proves that the script computes them. *)

Inductive background_op : Type := Replace | Remove.

(** The generation modes: the page selected in the sidebar and, on the
    background page, the operation selected. *)
Inductive GenerationMode : Type :=
| TextToImage
| ColorGuided
| ImageGuided
| SubjectVariation
| BackgroundEdit (op : background_op).

Definition task_tag (m : GenerationMode) : string :=
  match m with
  | TextToImage => "TEXT_IMAGE"
  | ColorGuided => "COLOR_GUIDED_GENERATION"
  | ImageGuided => "TEXT_IMAGE"
  | SubjectVariation => "IMAGE_VARIATION"
  | BackgroundEdit Replace => "OUTPAINTING"
  | BackgroundEdit Remove => "BACKGROUND_REMOVAL"
  end.

(** The task-specific block that goes with a task type. *)
Definition params_blocks : list (string * string) :=
  [("TEXT_IMAGE", "textToImageParams");
   ("COLOR_GUIDED_GENERATION", "colorGuidedGenerationParams");
   ("IMAGE_VARIATION", "imageVariationParams");
   ("OUTPAINTING", "outPaintingParams");
   ("BACKGROUND_REMOVAL", "backgroundRemovalParams")].

Fixpoint params_block_of (tag : string) (table : list (string * string)) : option string :=
  match table with
  | [] => None
  | (t, b) :: rest => if String.eqb tag t then Some b else params_block_of tag rest
  end.



Definition has_key (k : string) (p : value) : bool :=
  match p with VDict d => dict_in k d | _ => false end.

Definition generation_config (p : value) : option dict :=
  subdict "imageGenerationConfig" p.

Section Summary.
Context `{Imaging}.
Variable w : world.
Variable ui : widgets.

(** The seed a rerun puts into its request: the generator's second number of
    the rerun (the first one is the default of the seed input), or the value of
    the seed input. *)
Definition seed_used : Z :=
  if use_random_seed ui then 0 + entropy w 1 mod (858993459 - 0 + 1) else seed ui.

Definition on_page (name : string) : bool := String.eqb (feature ui) name.

Definition mode_of : option GenerationMode :=
  if on_page "Simple Image Generation" then Some TextToImage
  else if on_page "Color-Guided Generation" then Some ColorGuided
  else if on_page "Image-Guided Generation" then Some ImageGuided
  else if on_page "Instant Customization" then Some SubjectVariation
  else if on_page "Background Replacement" then
    Some (BackgroundEdit
            (if String.eqb (operation_type ui) "Background Replacement"
             then Replace else Remove))
  else None.

(** The request built in a mode. *)
Definition assemble (m : GenerationMode) : dict :=
  match m with
  | TextToImage => inference_params_simple ui seed_used
  | ColorGuided => add_reference_image ui (inference_params_color ui seed_used)
  | ImageGuided => inference_params_guided ui seed_used
  | SubjectVariation => add_negative_text ui (inference_params_variation ui seed_used)
  | BackgroundEdit Replace => inference_params_outpainting ui seed_used
  | BackgroundEdit Remove => inference_params_removal ui
  end.

(** The image a mode cannot do without (the uploader that gates the request). *)
Definition required_image (m : GenerationMode) : option (option UploadedFile) :=
  match m with
  | TextToImage | ColorGuided => None
  | ImageGuided => Some (conditioning_image ui)
  | SubjectVariation => Some (ref_image1 ui)
  | BackgroundEdit _ => Some (source_image ui)
  end.

Definition missing_required (m : GenerationMode) : bool :=
  match required_image m with
  | Some None => true
  | _ => false
  end.

(** The button of the mode. *)
Definition clicked (m : GenerationMode) : bool :=
  match m with
  | BackgroundEdit Replace => replace_button ui
  | BackgroundEdit Remove => remove_button ui
  | _ => generate_button ui
  end.

(** The request this rerun sends, if it sends one. *)
Definition request : option dict :=
  match mode_of with
  | Some m => if negb (missing_required m) && clicked m then Some (assemble m) else None
  | None => None
  end.

(** The informational messages of the page. *)
Definition page_info : list event :=
  match mode_of with
  | Some ImageGuided =>
      if missing_required ImageGuided
      then [StInfo "Please upload a conditioning image to continue"] else []
  | Some SubjectVariation =>
      [StInfo "Upload 1-3 reference images of the same subject in different poses/angles"]
  | Some (BackgroundEdit op) =>
      if missing_required (BackgroundEdit op)
      then [StInfo "Please upload a source image to continue"] else []
  | _ => []
  end.

(** Whether the rerun reaches the display of the stored images. *)
Definition reaches_display : bool :=
  match mode_of with
  | Some ImageGuided => negb (missing_required ImageGuided)
  | Some (BackgroundEdit op) => negb (missing_required (BackgroundEdit op))
  | Some _ => true
  | None => false
  end.

Definition success_msg (imgs : list string) : string :=
  match mode_of with
  | Some (BackgroundEdit Remove) => "Background removed successfully!"
  | _ => generated_msg imgs
  end.

Definition failure_msg : string :=
  match mode_of with
  | Some (BackgroundEdit Remove) =>
      "Failed to remove background. Check the logs for details."
  | _ => generate_failed
  end.

Variable ss : session_state.

(** The session directory after lines 19-21. *)
Definition session_dir : string :=
  match output_directory ss with
  | Some d => d
  | None => "output/" ++ strftime (now w)
  end.

(** The stored images after lines 23-24. *)
Definition stored_before : list string :=
  match generated_images ss with Some l => l | None => [] end.

Definition stored_after : list string :=
  match request with
  | Some p =>
      match images (generate_images w (VDict p)) with
      | Some l => l
      | None => stored_before
      end
  | None => stored_before
  end.

Definition request_events : list event :=
  match request with
  | Some p =>
      [NewGenerator session_dir; GenerateImages (VDict p)] ++
      match images (generate_images w (VDict p)) with
      | Some l =>
          SaveBase64Images l session_dir "image" ::
          match save_base64_images l session_dir "image" with
          | Some _ => [StSuccess (success_msg l)]
          | None => []
          end
      | None => [StError failure_msg]
      end
  | None => []
  end.

(** Whether the rerun ends in the sink: it received images that the sink
    cannot decode. *)
Definition sink_fails : bool :=
  match request with
  | Some p =>
      match images (generate_images w (VDict p)) with
      | Some l =>
          match save_base64_images l session_dir "image" with
          | Some _ => false
          | None => true
          end
      | None => false
      end
  | None => false
  end.

(** What the rerun renders of the stored images. *)
Definition display_tail : list event :=
  if reaches_display && negb sink_fails then displayed stored_after else [].

Definition summary_trace : list event :=
  page_info ++ request_events ++ display_tail.

Definition summary_outcome : outcome unit :=
  if sink_fails then Raised BinasciiError
  else if reaches_display then display_outcome stored_after else Done tt.

(** How many numbers the rerun takes from the generator: the default of the
    seed input and, with a random seed, the seed of the request. *)
Definition summary_draws : nat :=
  match request, mode_of with
  | Some _, Some (BackgroundEdit Remove) => 1
  | Some _, _ => if use_random_seed ui then 2 else 1
  | None, _ => 1
  end.

Definition summary_session : session_state :=
  {| output_directory := Some session_dir; generated_images := Some stored_after |}.

Definition summary : outcome unit * machine :=
  (summary_outcome, {| session := summary_session; draws := summary_draws;
                       trace := summary_trace |}).

End Summary.
(** ** A concrete environment, used to run the model *)

Definition bytes_of_string (s : string) : list byte :=
  map byte_of_ascii (list_ascii_of_string s).

(** A stand-in for the decoding libraries: the bytes of a blob are its
    characters, and every non-empty sequence of bytes opens as an image. *)
#[local] Instance sample_imaging : Imaging :=
  {| image := list byte;
     b64decode := fun s => Some (bytes_of_string s);
     Image_open := fun b => match b with [] => None | _ => Some b end;
     Image_save_png := fun i => i |}.

Definition sample_file : UploadedFile :=
  {| file_name := "photo.png"; getvalue := ["M"%byte; "a"%byte; "n"%byte] |}.

(** The widgets of a rerun on a page, with every uploader holding [upload],
    every button clicked and the other widgets at fixed values. *)
Definition widgets_on (page : string) (upload : option UploadedFile)
    (operation : string) (random : bool) : widgets :=
  {| feature := page;
     quality := "standard"; width := 1024; height := 768;
     cfg_scale := 7.0%float; num_images := 2;
     use_random_seed := random; seed := 42;
     text_prompt := "a red bicycle"; negative_prompt := "";
     color1 := "#81FC81"; color2 := "#386739"; color3 := "#C9D688";
     color4 := "#FFFFFF"; color5 := "#FFFFFF";
     reference_image := upload;
     conditioning_image := upload;
     control_mode := "SEGMENTATION"; control_strength := 0.5%float;
     ref_image1 := upload; ref_image2 := None; ref_image3 := None;
     similarity_strength := 0.75%float;
     operation_type := operation;
     source_image := upload;
     mask_prompt := "person"; outpainting_mode := "PRECISE";
     generate_button := true; replace_button := true; remove_button := true |}.

(** Text-to-image with an empty negative prompt and the fixed seed 42. *)
Definition sample_widgets : widgets :=
  widgets_on "Simple Image Generation" None "Background Replacement" false.

Definition sample_world : world :=
  {| now := {| year := 2025; month := 3; day := 9; hour := 14; minute := 5; second := 7 |};
     entropy := fun n => 1000000007 * Z.of_nat (S n);
     generate_images := fun _ => {| images := Some ["QUJD"; "REVG"] |} |}.

(** A later moment at which the service fails. *)
Definition failing_world : world :=
  {| now := {| year := 2025; month := 3; day := 9; hour := 14; minute := 6; second := 30 |};
     entropy := entropy sample_world;
     generate_images := fun _ => {| images := None |} |}.

Definition red_bicycle_request : value :=
  VDict (assemble sample_world sample_widgets TextToImage).

(** The customization page, clicked with no reference image. *)
Definition no_reference_widgets : widgets :=
  widgets_on "Instant Customization" None "Background Replacement" false.

Definition outpainting_widgets : widgets :=
  widgets_on "Background Replacement" (Some sample_file) "Background Replacement" false.

Definition outpainting_request : value :=
  VDict (assemble sample_world outpainting_widgets (BackgroundEdit Replace)).

Definition random_seed_widgets : widgets :=
  widgets_on "Simple Image Generation" None "Background Replacement" true.

Definition random_seed_request : value :=
  VDict (assemble sample_world random_seed_widgets TextToImage).

(** A session that already holds two images. *)
Definition session_with_images : session_state :=
  {| output_directory := Some "output/2025-03-09_14-05-07";
     generated_images := Some ["QUJD"; "REVG"] |}.

Definition failing_request : value :=
  VDict (assemble failing_world sample_widgets TextToImage).

Definition image_guided_widgets : widgets :=
  widgets_on "Image-Guided Generation" (Some sample_file) "Background Replacement" false.

Definition image_guided_request : value :=
  VDict (assemble sample_world image_guided_widgets ImageGuided).

Definition color_guided_widgets : widgets :=
  widgets_on "Color-Guided Generation" None "Background Replacement" false.

Definition color_guided_request : value :=
  VDict (assemble sample_world color_guided_widgets ColorGuided).

(** ** Reading a base64 string back *)

(** The position of a character in the alphabet. *)
Fixpoint b64_position (c : ascii) (alphabet : string) (i : N) : option N :=
  match alphabet with
  | EmptyString => None
  | String a rest => if Ascii.eqb c a then Some i else b64_position c rest (N.succ i)
  end.

Definition b64_value (c : ascii) : N :=
  match b64_position c b64_alphabet 0 with Some n => n | None => 0 end.

Definition byte_of_N (n : N) : byte :=
  match Byte.of_N n with Some b => b | None => "000"%byte end.

(** The bytes of a string produced by [b64encode]: four characters give three
    bytes, or one or two bytes in front of the padding. *)
Fixpoint b64_unpack (s : string) : list byte :=
  match s with
  | String c1 (String c2 (String c3 (String c4 rest))) =>
      let n := (b64_value c1 * 262144 + b64_value c2 * 4096
                + b64_value c3 * 64 + b64_value c4)%N in
      if Ascii.eqb c3 "="%char then [byte_of_N (n / 65536)%N]
      else if Ascii.eqb c4 "="%char
           then [byte_of_N (n / 65536)%N; byte_of_N ((n / 256) mod 256)%N]
           else byte_of_N (n / 65536)%N :: byte_of_N ((n / 256) mod 256)%N
                  :: byte_of_N (n mod 256)%N :: b64_unpack rest
  | _ => []
  end.

Definition is_b64_char (c : ascii) : bool :=
  match b64_position c b64_alphabet 0 with Some _ => true | None => Ascii.eqb c "="%char end.

(** ** More readings of requests and traces *)

(** No [None] anywhere in a Python value. *)
Fixpoint no_none (v : value) : bool :=
  match v with
  | VNone => false
  | VList l => forallb no_none l
  | VDict d => forallb (fun kv => no_none (snd kv)) d
  | _ => true
  end.

(** The uploads that are present, in slot order. *)
Definition supplied (slots : list (option UploadedFile)) : list UploadedFile :=
  flat_map (fun o => match o with Some f => [f] | None => [] end) slots.

(** An upload that is present and not empty. *)
Definition has_bytes (o : option UploadedFile) : bool :=
  match o with
  | Some f => match getvalue f with [] => false | _ => true end
  | None => false
  end.

(** The widgets of a rerun in which no button was clicked. *)
Definition idle (ui : widgets) : widgets :=
  {| feature := feature ui;
     quality := quality ui; width := width ui; height := height ui;
     cfg_scale := cfg_scale ui; num_images := num_images ui;
     use_random_seed := use_random_seed ui; seed := seed ui;
     text_prompt := text_prompt ui; negative_prompt := negative_prompt ui;
     color1 := color1 ui; color2 := color2 ui; color3 := color3 ui;
     color4 := color4 ui; color5 := color5 ui;
     reference_image := reference_image ui;
     conditioning_image := conditioning_image ui;
     control_mode := control_mode ui; control_strength := control_strength ui;
     ref_image1 := ref_image1 ui; ref_image2 := ref_image2 ui;
     ref_image3 := ref_image3 ui;
     similarity_strength := similarity_strength ui;
     operation_type := operation_type ui;
     source_image := source_image ui;
     mask_prompt := mask_prompt ui; outpainting_mode := outpainting_mode ui;
     generate_button := false; replace_button := false; remove_button := false |}.

Section MoreReadings.
Context `{Imaging}.

Definition is_success (e : event) : bool :=
  match e with StSuccess _ => true | _ => false end.

(** The success and error messages of a trace, in order. *)
Definition statuses (t : list event) : list event :=
  filter (fun e => is_error e || is_success e) t.

(** The generators created during a rerun. *)
Definition generators (t : list event) : list string :=
  flat_map (fun e => match e with NewGenerator d => [d] | _ => [] end) t.

(** The exception that the display raises on a blob that does not decode. *)
Definition decode_error (s : string) : exn :=
  match b64decode s with
  | None => BinasciiError
  | Some _ => UnidentifiedImageError
  end.

End MoreReadings.

(** More concrete inputs. *)



Definition variation_widgets : widgets :=
  widgets_on "Instant Customization" (Some sample_file) "Background Replacement" false.

Definition variation_request : value :=
  VDict (assemble sample_world variation_widgets SubjectVariation).

(** A service whose second image is an empty blob. *)
Definition broken_world : world :=
  {| now := now sample_world;
     entropy := entropy sample_world;
     generate_images := fun _ => {| images := Some ["QUJD"; ""; "REVG"] |} |}.

Definition broken_request : value :=
  VDict (assemble broken_world sample_widgets TextToImage).

(** * Properties *)

(** ** The display only appends display events *)

Section Frames.
Context `{Imaging}.

Lemma extend_nil m : extend m [] = m.
Proof. destruct m; unfold extend; cbn. now rewrite app_nil_r. Qed.

Lemma display_loop_extend cols l : forall i m,
  display_loop cols i l m =
  (fst (display_loop cols i l blank),
   extend m (trace (snd (display_loop cols i l blank)))).
Proof.
  induction l as [|x l IH]; intros i m; cbn [display_loop].
  - cbn. now rewrite extend_nil.
  - unfold bind, of_option, emit, ret, raise.
    destruct (nth_error cols (i mod 3)) as [c|];
      [|cbn; now rewrite extend_nil].
    destruct (b64decode x) as [b|]; [|cbn; now rewrite extend_nil].
    destruct (Image_open b) as [img|]; [|cbn; now rewrite extend_nil].
    cbn [fst snd session draws trace blank app].
    rewrite IH.
    match goal with
    | |- context [display_loop cols (S i) l {| session := empty_session; draws := 0;
                                               trace := ?t |}] =>
        rewrite (IH (S i) {| session := empty_session; draws := 0; trace := t |})
    end.
    cbn [fst snd]. f_equal.
    unfold extend; cbn [session draws trace]. f_equal.
    now rewrite <- !app_assoc.
Qed.

Lemma display_generated_images_extend l m :
  display_generated_images l m = (display_outcome l, extend m (displayed l)).
Proof.
  unfold displayed, display_outcome, display_generated_images.
  destruct l as [|x l]; [cbn; now rewrite extend_nil|].
  unfold bind, emit. cbn [fst snd session draws trace blank app].
  rewrite display_loop_extend.
  match goal with
  | |- context [display_loop ?c 0 ?l' {| session := empty_session; draws := 0;
                                         trace := [?e] |}] =>
      rewrite (display_loop_extend c l' 0
                 {| session := empty_session; draws := 0; trace := [e] |})
  end.
  cbn [fst snd]. f_equal.
  unfold extend; cbn [session draws trace]. f_equal.
  now rewrite <- app_assoc.
Qed.

Lemma display_loop_events cols l : forall i,
  forallb is_display_event (trace (snd (display_loop cols i l blank))) = true.
Proof.
  induction l as [|x l IH]; intros i; cbn [display_loop]; [reflexivity|].
  unfold bind at 1. unfold of_option.
  destruct (nth_error cols (i mod 3)) as [c|]; [|reflexivity].
  cbn [ret]. unfold bind at 1.
  destruct (b64decode x) as [b|]; [|reflexivity].
  cbn [ret]. unfold bind at 1.
  destruct (Image_open b) as [img|]; [|reflexivity].
  unfold bind, emit, ret. cbn [fst snd session draws trace blank app].
  rewrite display_loop_extend. cbn [snd extend trace app forallb is_display_event andb].
  apply IH.
Qed.

Lemma displayed_events l : forallb is_display_event (displayed l) = true.
Proof.
  unfold displayed, display_generated_images.
  destruct l as [|x l]; [reflexivity|].
  unfold bind, emit. cbn [fst snd session draws trace blank app].
  rewrite display_loop_extend. cbn [snd extend trace app forallb is_display_event andb].
  apply display_loop_events.
Qed.

Lemma show_generated_images_extend m l :
  generated_images (session m) = Some l ->
  show_generated_images m = (display_outcome l, extend m (displayed l)).
Proof.
  intros E.
  unfold show_generated_images, read_generated_images, bind, get_session, of_option.
  rewrite E. cbn [ret].
  destruct l as [|x l]; [|apply display_generated_images_extend].
  cbn. now rewrite extend_nil.
Qed.

End Frames.

(** ** The script computes its summary *)

(** Symbolic execution of a rerun: case analysis on the page, then on every
    test the script makes. *)
Ltac eval_eqb :=
  repeat match goal with
  | |- context [String.eqb ?a ?b] =>
      let v := eval vm_compute in (String.eqb a b) in
      match v with
      | true => change (String.eqb a b) with true
      | false => change (String.eqb a b) with false
      end
  end.

Ltac on_feature ui name :=
  let F := fresh "F" in
  destruct (String.eqb (feature ui) name) eqn:F;
  [apply String.eqb_eq in F; try rewrite F; eval_eqb | ].

Ltac split_on b :=
  lazymatch b with
  | andb ?x ?y => first [split_on x | split_on y]
  | negb ?x => split_on x
  | is_some ?x => destruct x eqn:?
  | if ?c then _ else _ => split_on c
  | match ?x with Some _ => _ | None => _ end => split_on x
  | _ => destruct b eqn:?
  end.

Ltac exec_case :=
  match goal with
  | |- context [if ?b then _ else _] => split_on b
  | |- context [match ?x with Some _ => _ | None => _ end] => split_on x
  end.

Ltac exec_show :=
  match goal with
  | |- context [show_generated_images ?m] =>
      erewrite (show_generated_images_extend m) by reflexivity
  end.

Ltac exec_simpl :=
  cbn [session output_directory generated_images draws trace fst snd
       is_some andb negb extend app].

Ltac exec_script ui :=
  on_feature ui "Simple Image Generation";
  [|on_feature ui "Color-Guided Generation";
    [|on_feature ui "Image-Guided Generation";
      [|on_feature ui "Instant Customization";
        [|on_feature ui "Background Replacement"]]]];
  exec_simpl;
  repeat (exec_case; exec_simpl);
  try discriminate;
  try exec_show;
  exec_simpl.

Section SummaryProof.
Context `{Imaging}.

Theorem run_script_summary w ui ss : run_script w ui ss = summary w ui ss.
Proof.
  unfold summary, summary_outcome, summary_session, summary_trace, summary_draws,
    display_tail, sink_fails,
    request_events, stored_after, stored_before, session_dir, success_msg,
    failure_msg, reaches_display, page_info, request, missing_required,
    required_image, clicked, assemble, mode_of, on_page, seed_used.
  unfold run_script, script, init_session_state,
    simple_image_generation, color_guided_generation, image_guided_generation,
    instant_customization, background_replacement,
    call_generator, handle_response, resolve_seed, randint,
    read_output_directory, set_output_directory, set_generated_images,
    of_option, when, bind, get_session, put_session, emit, ret, raise.
  destruct ss as [od gi]; cbn [session output_directory generated_images draws trace].
  destruct od, gi; cbn [session output_directory generated_images draws trace fst snd].
  all: exec_script ui.
  all: rewrite <- ?app_assoc; reflexivity.
Qed.

Corollary trace_run_script w ui ss :
  trace (snd (run_script w ui ss)) = summary_trace w ui ss.
Proof. now rewrite run_script_summary. Qed.

Corollary session_run_script w ui ss :
  session (snd (run_script w ui ss)) = summary_session w ui ss.
Proof. now rewrite run_script_summary. Qed.

Corollary outcome_run_script w ui ss :
  fst (run_script w ui ss) = summary_outcome w ui ss.
Proof. now rewrite run_script_summary. Qed.

End SummaryProof.

(** ** The request of a rerun *)

Section Calls.
Context `{Imaging}.

Lemma calls_app (t1 t2 : list event) : calls (t1 ++ t2) = (calls t1 ++ calls t2)%list.
Proof. unfold calls. apply flat_map_app. Qed.

Lemma calls_display (d : list event) :
  forallb is_display_event d = true -> calls d = [].
Proof.
  induction d as [|e d IH]; cbn; [reflexivity|].
  intros Hd. apply andb_prop in Hd as [He Hd].
  destruct e; cbn in He; try discriminate; cbn; auto.
Qed.

Lemma calls_page_info ui : calls (page_info ui) = [].
Proof.
  unfold page_info.
  destruct (mode_of ui) as [[| | | |op]|]; try reflexivity;
    destruct (missing_required _ _); reflexivity.
Qed.

Lemma calls_request_events w ui ss :
  calls (request_events w ui ss) =
  match request w ui with Some p => [VDict p] | None => [] end.
Proof.
  unfold request_events.
  destruct (request w ui) as [p|]; [|reflexivity].
  destruct (images _); [|reflexivity].
  destruct (save_base64_images _ _ _); reflexivity.
Qed.

Lemma display_tail_events w ui ss :
  forallb is_display_event (display_tail w ui ss) = true.
Proof.
  unfold display_tail.
  destruct (reaches_display ui && negb (sink_fails w ui ss));
    [apply displayed_events|reflexivity].
Qed.

Lemma calls_run_script w ui ss :
  calls (trace (snd (run_script w ui ss))) =
  match request w ui with Some p => [VDict p] | None => [] end.
Proof.
  rewrite trace_run_script. unfold summary_trace.
  rewrite !calls_app, calls_page_info, calls_request_events,
    (calls_display _ (display_tail_events w ui ss)).
  cbn [app]. now rewrite app_nil_r.
Qed.

(** A request that was sent is the request of the selected mode, which had its
    required image and whose button was clicked. *)
Lemma sent_request w ui ss p :
  In p (calls (trace (snd (run_script w ui ss)))) ->
  exists m, mode_of ui = Some m /\ missing_required ui m = false /\
            clicked ui m = true /\ request w ui = Some (assemble w ui m) /\
            p = VDict (assemble w ui m).
Proof.
  rewrite calls_run_script. unfold request.
  destruct (mode_of ui) as [m|]; [|intros []].
  destruct (missing_required ui m) eqn:Em; cbn [negb andb]; [intros []|].
  destruct (clicked ui m) eqn:Ec; [|intros []].
  intros [<-|[]]. exists m. auto.
Qed.

End Calls.

(** Case analysis on the optional parts of a request, then evaluation. *)
Ltac payload_cases :=
  unfold assemble, add_reference_image, add_negative_text, reference_image_base64,
    inference_params_simple, inference_params_color, inference_params_guided,
    inference_params_variation, inference_params_outpainting,
    inference_params_removal, image_generation_config,
    outpainting_generation_config;
  cbn;
  repeat (match goal with
          | |- context [match ?x with Some _ => _ | None => _ end] =>
              lazymatch type of x with option UploadedFile => destruct x end
          | |- context [if ?b then _ else _] => destruct b
          end; cbn).


Section Payloads.
Context `{Imaging}.



(** C10: a colour-guided request always carries the values of all five colour
    pickers, in order; its [colors] list has length 5. *)
Theorem color_guided_sends_five_colors w ui ss p :
  In p (calls (trace (snd (run_script w ui ss)))) ->
  mode_of ui = Some ColorGuided ->
  exists b cs,
    subdict "colorGuidedGenerationParams" p = Some b /\
    dict_get "colors" b = Some (VList cs) /\
    List.length cs = 5%nat /\
    cs = map VStr [color1 ui; color2 ui; color3 ui; color4 ui; color5 ui].
Proof.
  intros Hp Hm.
  destruct (sent_request _ _ _ _ Hp) as (m' & Hm' & _ & _ & _ & ->).
  rewrite Hm in Hm'. injection Hm' as <-.
  payload_cases; do 2 eexists; repeat split; reflexivity.
Qed.

(** C4, as the code has it: the generation-config block of a request holds
    the image count, quality, width, height, cfg-scale and seed, in every mode
    but two: background replacement (OUTPAINTING) sends the block without width
    and height, and background removal sends no block. *)
Theorem generation_config_parameters w ui ss p :
  In p (calls (trace (snd (run_script w ui ss)))) ->
  exists m,
    mode_of ui = Some m /\
    match m with
    | BackgroundEdit Remove =>
        generation_config p = None /\ has_key "imageGenerationConfig" p = false
    | BackgroundEdit Replace =>
        generation_config p =
          Some [("numberOfImages", VInt (num_images ui));
                ("quality", VStr (quality ui));
                ("cfgScale", VFloat (cfg_scale ui));
                ("seed", VInt (seed_used w ui))]
    | _ =>
        generation_config p =
          Some [("numberOfImages", VInt (num_images ui));
                ("quality", VStr (quality ui));
                ("width", VInt (width ui));
                ("height", VInt (height ui));
                ("cfgScale", VFloat (cfg_scale ui));
                ("seed", VInt (seed_used w ui))]
    end.
Proof.
  intros Hp. destruct (sent_request _ _ _ _ Hp) as (m & Hm & _ & _ & _ & ->).
  exists m. split; [exact Hm|].
  destruct m as [| | | |[|]]; payload_cases; auto.
Qed.

Lemma seed_used_range w ui :
  0 <= seed ui <= 858993459 -> 0 <= seed_used w ui <= 858993459.
Proof.
  intros Hs. unfold seed_used. destruct (use_random_seed ui); [|exact Hs].
  change (858993459 - 0 + 1) with 858993460.
  pose proof (Z.mod_pos_bound (entropy w 1) 858993460 eq_refl). lia.
Qed.

(** C5: the seed of a generation-config block is an integer between 0 and
    858993459: the value of the seed input when the random seed is off, and
    otherwise the number that [randint(0, 858993459)] returns when the request is
    built (the second number the rerun takes from the generator). *)
Theorem payload_seed_resolved w ui ss p :
  0 <= seed ui <= 858993459 ->
  In p (calls (trace (snd (run_script w ui ss)))) ->
  has_key "imageGenerationConfig" p = true ->
  exists cfg s,
    generation_config p = Some cfg /\
    dict_get "seed" cfg = Some (VInt s) /\
    0 <= s <= 858993459 /\
    (use_random_seed ui = false -> s = seed ui) /\
    (use_random_seed ui = true ->
       draws (snd (run_script w ui ss)) = 2%nat /\
       forall m, draws m = 1%nat -> fst (randint w 0 858993459 m) = Done s).
Proof.
  intros Hs Hp Hcfg.
  pose proof (seed_used_range w ui Hs) as Hr.
  assert (Hdraw : use_random_seed ui = true ->
                  forall m, draws m = 1%nat ->
                            fst (randint w 0 858993459 m) = Done (seed_used w ui)).
  { intros E m Hm. unfold randint, seed_used. rewrite E, Hm. reflexivity. }
  assert (Hfix : use_random_seed ui = false -> seed_used w ui = seed ui).
  { intros E. unfold seed_used. now rewrite E. }
  assert (Hn : use_random_seed ui = true ->
               has_key "imageGenerationConfig" p = true ->
               draws (snd (run_script w ui ss)) = 2%nat).
  { intros E. rewrite run_script_summary. unfold summary, summary_draws.
    cbn [snd draws].
    destruct (sent_request _ _ _ _ Hp) as (m & Hm & _ & _ & Hq & ->).
    rewrite Hq, Hm, E.
    destruct m as [| | | |[|]]; try reflexivity.
    payload_cases. discriminate. }
  destruct (sent_request _ _ _ _ Hp) as (m & Hm & _ & _ & _ & ->).
  destruct m as [| | | |[|]]; revert Hcfg Hn; payload_cases; intros Hcfg Hn;
    try discriminate;
    do 2 eexists; (split; [reflexivity|]); (split; [reflexivity|]);
    (split; [exact Hr|]);
    (split; [exact Hfix | intros E; split; [now apply Hn | exact (Hdraw E)]]).
Qed.

End Payloads.

(** ** Rendering in order *)

Section DisplayOrder.
Context `{Imaging}.

Lemma column_in_range j n : (j < n)%nat -> (j mod 3 < Nat.min 3 n)%nat.
Proof.
  intros Hj. pose proof (Nat.mod_upper_bound j 3).
  destruct (Nat.le_gt_cases 3 n); [lia|].
  rewrite Nat.mod_small by lia. lia.
Qed.

Lemma decode_all_length l : forall imgs,
  decode_all l = Some imgs -> List.length imgs = List.length l.
Proof.
  induction l as [|s l IH]; cbn; intros imgs E.
  - now inversion E.
  - destruct (decode_image s); [|discriminate].
    destruct (decode_all l) as [rest|]; [|discriminate].
    inversion E; subst. cbn. f_equal. now apply IH.
Qed.

(** When every blob decodes, the loop neither indexes outside the columns nor
    raises, and renders one tile per image, in list order. *)
Lemma display_loop_tiles n l : forall i imgs,
  decode_all l = Some imgs ->
  (i + List.length l <= n)%nat ->
  display_loop (seq 0 (Nat.min 3 n)) i l blank = (Done tt, extend blank (tiles i imgs)).
Proof.
  induction l as [|s l IH]; cbn [decode_all display_loop List.length]; intros i imgs E Hn.
  - inversion E; subst. reflexivity.
  - unfold decode_image in E.
    destruct (b64decode s) as [b|] eqn:Eb; [|discriminate].
    destruct (Image_open b) as [img|] eqn:Ei; [|discriminate].
    destruct (decode_all l) as [rest|] eqn:Er; [|discriminate].
    inversion E; subst imgs.
    unfold bind, of_option, emit, ret.
    rewrite nth_error_seq.
    assert (Hc : (i mod 3 <? Nat.min 3 n)%nat = true)
      by (apply Nat.ltb_lt, column_in_range; lia).
    rewrite Hc, ?Eb, ?Ei.
    cbn [fst snd session draws trace blank app Nat.add].
    rewrite display_loop_extend, (IH (S i) rest eq_refl) by lia.
    cbn [fst snd extend trace blank app tiles tile session draws].
    reflexivity.
Qed.

Lemma displayed_tiles l imgs :
  decode_all l = Some imgs ->
  display_outcome l = Done tt /\
  displayed l =
    match imgs with
    | [] => []
    | _ => StColumns (Nat.min 3 (List.length imgs)) :: tiles 0 imgs
    end.
Proof.
  intros E. pose proof (decode_all_length _ _ E) as Hlen.
  unfold display_outcome, displayed, display_generated_images.
  destruct l as [|s l].
  - cbn in E. inversion E; subst. split; reflexivity.
  - destruct imgs as [|img imgs]; [discriminate|].
    unfold bind, emit. cbn [fst snd session draws trace blank app].
    rewrite display_loop_extend, (display_loop_tiles _ _ 0 _ E) by (cbn; lia).
    rewrite Hlen. split; reflexivity.
Qed.

Lemma rendered_images_tiles imgs : forall i, rendered_images (tiles i imgs) = imgs.
Proof.
  induction imgs as [|img imgs IH]; intros i; cbn; [reflexivity|].
  f_equal. apply IH.
Qed.

Lemma download_names_tiles imgs : forall i,
  download_names (tiles i imgs) =
  map (fun k => "generated_image_" ++ string_of_nat (k + 1) ++ ".png")
      (seq i (List.length imgs)).
Proof.
  induction imgs as [|img imgs IH]; intros i; cbn; [reflexivity|].
  f_equal. apply IH.
Qed.

(** The sink of the specification names its files by position. *)
Lemma save_from_names l dir prefix : forall index imgs,
  decode_all l = Some imgs ->
  exists files,
    save_from index l dir prefix = Some files /\
    map fst files =
      map (fun k => dir ++ "/" ++ prefix ++ "_" ++ string_of_nat (k + 1))
          (seq index (List.length l)) /\
    map b64decode l = map (fun f => Some (snd f)) files.
Proof.
  induction l as [|s l IH]; cbn [decode_all save_from List.length seq map];
    intros index imgs E.
  - exists []. repeat split; reflexivity.
  - unfold decode_image in E.
    destruct (b64decode s) as [b|] eqn:Eb; [|discriminate].
    destruct (Image_open b) as [img|]; [|discriminate].
    destruct (decode_all l) as [rest|] eqn:Er; [|discriminate].
    destruct (IH (S index) rest eq_refl) as (files & Ef & Hn & Hb).
    rewrite Ef. eexists. split; [reflexivity|].
    cbn [map fst snd]. rewrite Hn, Hb, ?Eb.
    repeat split; reflexivity.
Qed.

Lemma decode_all_map l : forall imgs,
  decode_all l = Some imgs -> map decode_image l = map Some imgs.
Proof.
  induction l as [|s l IH]; cbn; intros imgs E.
  - now inversion E.
  - destruct (decode_image s); [|discriminate].
    destruct (decode_all l) as [rest|]; [|discriminate].
    inversion E; subst. cbn. f_equal. now apply IH.
Qed.

End DisplayOrder.

(** ** Reading the trace of a rerun *)

Ltac page_info_cases ui :=
  unfold page_info;
  destruct (mode_of ui) as [[| | | |?]|]; try reflexivity;
  destruct (missing_required _ _); reflexivity.

Ltac display_only d Hd IH :=
  induction d as [|[] d IH]; cbn in Hd |- *; try discriminate; auto.

Section Projections.
Context `{Imaging}.

Lemma saves_app (t1 t2 : list event) : saves (t1 ++ t2) = (saves t1 ++ saves t2)%list.
Proof. apply flat_map_app. Qed.

Lemma directories_app (t1 t2 : list event) :
  directories (t1 ++ t2) = (directories t1 ++ directories t2)%list.
Proof. apply flat_map_app. Qed.

Lemma rendered_images_app (t1 t2 : list event) :
  rendered_images (t1 ++ t2) = (rendered_images t1 ++ rendered_images t2)%list.
Proof. apply flat_map_app. Qed.

Lemma download_names_app (t1 t2 : list event) :
  download_names (t1 ++ t2) = (download_names t1 ++ download_names t2)%list.
Proof. apply flat_map_app. Qed.

Lemma saves_display d : forallb is_display_event d = true -> saves d = [].
Proof. intros Hd. display_only d Hd IH. Qed.

Lemma directories_display d : forallb is_display_event d = true -> directories d = [].
Proof. intros Hd. display_only d Hd IH. Qed.

Lemma errors_display d : forallb is_display_event d = true -> existsb is_error d = false.
Proof. intros Hd. display_only d Hd IH. Qed.

Lemma filter_display d :
  forallb is_display_event d = true -> filter is_display_event d = d.
Proof.
  intros Hd. induction d as [|e d IH]; [reflexivity|].
  cbn in Hd |- *. apply andb_prop in Hd as [He Hd]. rewrite He. f_equal. auto.
Qed.

Lemma saves_page_info ui : saves (page_info ui) = [].
Proof. page_info_cases ui. Qed.

Lemma directories_page_info ui : directories (page_info ui) = [].
Proof. page_info_cases ui. Qed.

Lemma rendered_images_page_info ui : rendered_images (page_info ui) = [].
Proof. page_info_cases ui. Qed.

Lemma download_names_page_info ui : download_names (page_info ui) = [].
Proof. page_info_cases ui. Qed.

Lemma filter_display_page_info ui : filter is_display_event (page_info ui) = [].
Proof. page_info_cases ui. Qed.

Lemma errors_page_info ui : existsb is_error (page_info ui) = false.
Proof. page_info_cases ui. Qed.

Lemma filter_display_request_events w ui ss :
  filter is_display_event (request_events w ui ss) = [].
Proof.
  unfold request_events. destruct (request w ui); [|reflexivity].
  destruct (images _); [|reflexivity].
  destruct (save_base64_images _ _ _); reflexivity.
Qed.

(** A rerun that sends a request goes on to the display. *)
Lemma request_reaches_display w ui d :
  request w ui = Some d -> reaches_display ui = true.
Proof.
  unfold request, reaches_display.
  destruct (mode_of ui) as [[| | | |op]|]; try reflexivity; try discriminate;
    destruct (missing_required _ _); cbn; auto; discriminate.
Qed.

(** The trace of a rerun that sends a request and gets through the sink. *)
Lemma trace_with_request w ui ss d :
  request w ui = Some d ->
  sink_fails w ui ss = false ->
  trace (snd (run_script w ui ss)) =
    (page_info ui ++ request_events w ui ss ++ displayed (stored_after w ui ss))%list.
Proof.
  intros E Hs. rewrite trace_run_script. unfold summary_trace, display_tail.
  now rewrite (request_reaches_display _ _ _ E), Hs.
Qed.

(** The sink takes a batch in which every image decodes. *)
Lemma sink_takes_decodable l dir prefix imgs :
  decode_all l = Some imgs -> exists files, save_base64_images l dir prefix = Some files.
Proof.
  intros E. destruct (save_from_names l dir prefix 0 imgs E) as (files & Ef & _).
  exists files. exact Ef.
Qed.

(** The directory of the session after a rerun, and the directories the rerun
    hands out. *)
Lemma run_script_directory w ui ss :
  output_directory (session (snd (run_script w ui ss))) = Some (session_dir w ss) /\
  Forall (eq (session_dir w ss)) (directories (trace (snd (run_script w ui ss)))).
Proof.
  rewrite run_script_summary. cbn [snd session trace summary].
  split; [reflexivity|].
  unfold summary_trace.
  rewrite !directories_app, directories_page_info. cbn [app].
  apply Forall_app. split.
  - unfold request_events. destruct (request w ui); [|constructor].
    destruct (images _); [|cbn; repeat constructor].
    destruct (save_base64_images _ _ _); cbn; repeat constructor.
  - rewrite (directories_display _ (display_tail_events w ui ss)). constructor.
Qed.

End Projections.

(** ** Responses, the session and the gates *)

Section Responses.
Context `{Imaging}.

(** C6: when the service returns the images [l] and they decode, the rerun
    stores [l] as it is, hands exactly [l] to the sink, and renders the decoded
    images in the order of [l], the image at 0-based position [k] with the
    download name [generated_image_{k+1}.png]; the sink of the specification
    writes them, in the same order, as [image_{k+1}]. *)
Theorem images_keep_service_order w ui ss p l imgs :
  In p (calls (trace (snd (run_script w ui ss)))) ->
  images (generate_images w p) = Some l ->
  decode_all l = Some imgs ->
  let r := run_script w ui ss in
  let dir := session_dir w ss in
  fst r = Done tt /\
  generated_images (session (snd r)) = Some l /\
  saves (trace (snd r)) = [(l, dir, "image")] /\
  map Some (rendered_images (trace (snd r))) = map decode_image l /\
  download_names (trace (snd r)) =
    map (fun k => "generated_image_" ++ string_of_nat (k + 1) ++ ".png")
        (seq 0 (List.length l)) /\
  exists files,
    save_base64_images l dir "image" = Some files /\
    map fst files =
      map (fun k => dir ++ "/" ++ "image" ++ "_" ++ string_of_nat (k + 1))
          (seq 0 (List.length l)) /\
    map b64decode l = map (fun f => Some (snd f)) files.
Proof.
  intros Hp Hl Himgs r dir. subst r dir.
  destruct (sent_request _ _ _ _ Hp) as (m & _ & _ & _ & Hq & ->).
  pose proof (request_reaches_display _ _ _ Hq) as Hshow.
  destruct (displayed_tiles _ _ Himgs) as [Ho Hd].
  assert (Hafter : stored_after w ui ss = l)
    by (unfold stored_after; now rewrite Hq, Hl).
  destruct (sink_takes_decodable l (session_dir w ss) "image" imgs Himgs)
    as (saved & Hsaved).
  assert (Hreq : request_events w ui ss =
                 [NewGenerator (session_dir w ss);
                  GenerateImages (VDict (assemble w ui m));
                  SaveBase64Images l (session_dir w ss) "image";
                  StSuccess (success_msg ui l)])
    by (unfold request_events; now rewrite Hq, Hl, Hsaved).
  assert (Hsink : sink_fails w ui ss = false)
    by (unfold sink_fails; now rewrite Hq, Hl, Hsaved).
  split; [rewrite outcome_run_script; unfold summary_outcome;
          now rewrite Hsink, Hshow, Hafter|].
  split; [rewrite session_run_script; unfold summary_session;
          now rewrite Hafter|].
  rewrite (trace_with_request _ _ _ _ Hq Hsink), Hafter, Hreq.
  split; [rewrite !saves_app, saves_page_info,
            (saves_display _ (displayed_events l)); reflexivity|].
  assert (Hr : rendered_images (displayed l) = imgs).
  { rewrite Hd. destruct imgs as [|i0 imgs]; [reflexivity|].
    change (rendered_images (StColumns _ :: ?t)) with (rendered_images t).
    apply rendered_images_tiles. }
  assert (Hn : download_names (displayed l) =
               map (fun k => "generated_image_" ++ string_of_nat (k + 1) ++ ".png")
                   (seq 0 (List.length l))).
  { rewrite Hd, <- (decode_all_length _ _ Himgs).
    destruct imgs as [|i0 imgs]; [reflexivity|].
    change (download_names (StColumns _ :: ?t)) with (download_names t).
    apply download_names_tiles. }
  split; [rewrite !rendered_images_app, rendered_images_page_info, Hr;
          cbn [rendered_images flat_map app];
          symmetry; now apply decode_all_map|].
  split; [rewrite !download_names_app, download_names_page_info, Hn;
          reflexivity|].
  destruct (save_from_names l (session_dir w ss) "image" 0 imgs Himgs)
    as (files & Ef & Hnames & Hbytes).
  exists files. auto.
Qed.

(** Every rerun of a session that enters with a directory leaves with it and
    hands out no other. *)
Lemma run_session_directory inputs : forall ss dir,
  output_directory ss = Some dir ->
  Forall (fun r => output_directory (session (snd r)) = Some dir /\
                   Forall (eq dir) (directories (trace (snd r))))
         (run_session inputs ss).
Proof.
  induction inputs as [|[w ui] rest IH]; intros ss dir Hdir; cbn [run_session].
  - constructor.
  - destruct (run_script_directory w ui ss) as [Ho Hd].
    assert (Hs : session_dir w ss = dir) by (unfold session_dir; now rewrite Hdir).
    rewrite Hs in Ho, Hd.
    constructor; [split; assumption|].
    apply IH. exact Ho.
Qed.

(** C7: the directory of a session is computed in its first rerun, as
    [output/] followed by the time of that rerun; every later rerun keeps it in
    the session state, and every generator and every call of the sink in the
    session gets this path. *)
Theorem session_directory_fixed w0 ui0 rest :
  let dir := "output/" ++ strftime (now w0) in
  Forall (fun r => output_directory (session (snd r)) = Some dir /\
                   Forall (eq dir) (directories (trace (snd r))))
         (run_session ((w0, ui0) :: rest) empty_session).
Proof.
  intros dir. cbn [run_session].
  destruct (run_script_directory w0 ui0 empty_session) as [Ho Hd].
  change (session_dir w0 empty_session) with dir in Ho, Hd.
  constructor; [split; assumption|].
  apply run_session_directory. exact Ho.
Qed.

(** C8: a rerun whose call returns no images leaves the stored image list as
    it was (empty if the session had none yet) and renders that list; a call
    that returns images replaces the list by them. *)
Theorem failed_call_keeps_images w ui ss p :
  In p (calls (trace (snd (run_script w ui ss)))) ->
  let r := run_script w ui ss in
  match images (generate_images w p) with
  | None =>
      generated_images (session (snd r)) = Some (stored_before ss) /\
      filter is_display_event (trace (snd r)) = displayed (stored_before ss) /\
      saves (trace (snd r)) = []
  | Some l => generated_images (session (snd r)) = Some l
  end.
Proof.
  intros Hp r. subst r.
  destruct (sent_request _ _ _ _ Hp) as (m & _ & _ & _ & Hq & ->).
  destruct (images (generate_images w (VDict (assemble w ui m)))) as [l|] eqn:Hl.
  { rewrite session_run_script. unfold summary_session, stored_after.
    now rewrite Hq, Hl. }
  assert (Hsink : sink_fails w ui ss = false)
    by (unfold sink_fails; now rewrite Hq, Hl).
  rewrite session_run_script, (trace_with_request _ _ _ _ Hq Hsink).
  unfold summary_session, stored_after, request_events. rewrite Hq, Hl.
  cbn [generated_images].
  split; [reflexivity|].
  split.
  - rewrite !filter_app, filter_display_page_info,
      (filter_display _ (displayed_events _)). reflexivity.
  - rewrite !saves_app, saves_page_info, (saves_display _ (displayed_events _)).
    reflexivity.
Qed.

(** A rerun that sends no request leaves the stored image list as it was. *)
Lemma no_call_keeps_images w ui ss :
  calls (trace (snd (run_script w ui ss))) = [] ->
  generated_images (session (snd (run_script w ui ss))) = Some (stored_before ss).
Proof.
  rewrite calls_run_script, session_run_script.
  unfold summary_session, stored_after.
  destruct (request w ui); [discriminate|reflexivity].
Qed.

(** C2, as the code has it: when the image the mode requires is missing, the
    rerun builds no request, creates no generator, reports no error and leaves
    the stored images alone.  The image-guided and the background page show a
    message asking for the upload; the customization page ignores the click and
    goes on to render the stored images. *)
Theorem missing_image_sends_nothing w ui ss m :
  mode_of ui = Some m ->
  missing_required ui m = true ->
  let r := run_script w ui ss in
  calls (trace (snd r)) = [] /\
  directories (trace (snd r)) = [] /\
  existsb is_error (trace (snd r)) = false /\
  generated_images (session (snd r)) = Some (stored_before ss) /\
  match m with
  | ImageGuided =>
      r = (Done tt, {| session := summary_session w ui ss; draws := 1;
                       trace := [StInfo "Please upload a conditioning image to continue"] |})
  | BackgroundEdit _ =>
      r = (Done tt, {| session := summary_session w ui ss; draws := 1;
                       trace := [StInfo "Please upload a source image to continue"] |})
  | _ =>
      trace (snd r) =
        StInfo "Upload 1-3 reference images of the same subject in different poses/angles"
        :: displayed (stored_before ss)
  end.
Proof.
  intros Hm Hmiss r. subst r.
  assert (Hq : request w ui = None)
    by (unfold request; now rewrite Hm, Hmiss).
  rewrite run_script_summary.
  unfold summary, summary_trace, summary_outcome, summary_draws, request_events,
    display_tail, sink_fails, page_info, reaches_display.
  cbn [fst snd session trace].
  unfold summary_session at 1, stored_after. rewrite Hq, Hm.
  destruct m as [| | | |op]; try (exfalso; cbn in Hmiss; discriminate);
    rewrite ?Hmiss; cbn [negb andb generated_images];
    rewrite ?calls_app, ?directories_app, ?existsb_app,
      ?(calls_display _ (displayed_events _)),
      ?(directories_display _ (displayed_events _)),
      ?(errors_display _ (displayed_events _));
    repeat split; reflexivity.
Qed.

End Responses.

(** ** The model at concrete inputs *)

Example b64encode_Man : b64encode ["M"%byte; "a"%byte; "n"%byte] = "TWFu".
Proof. reflexivity. Qed.

Example b64encode_Ma : b64encode ["M"%byte; "a"%byte] = "TWE=".
Proof. reflexivity. Qed.

Example b64encode_M : b64encode ["M"%byte] = "TQ==".
Proof. reflexivity. Qed.

(** The end-to-end scenario of the specification: text-to-image, prompt
    "a red bicycle", 1024x768, standard quality, two images, seed 42. *)
Example red_bicycle_run :
  run_script sample_world sample_widgets empty_session =
  (Done tt,
   {| session := {| output_directory := Some "output/2025-03-09_14-05-07";
                    generated_images := Some ["QUJD"; "REVG"] |};
      draws := 1;
      trace :=
        [NewGenerator "output/2025-03-09_14-05-07";
         GenerateImages
           (VDict
              [("taskType", VStr "TEXT_IMAGE");
               ("textToImageParams",
                 VDict [("text", VStr "a red bicycle"); ("negativeText", VStr "")]);
               ("imageGenerationConfig",
                 VDict [("numberOfImages", VInt 2); ("quality", VStr "standard");
                        ("width", VInt 1024); ("height", VInt 768);
                        ("cfgScale", VFloat 7.0%float); ("seed", VInt 42)])]);
         SaveBase64Images ["QUJD"; "REVG"] "output/2025-03-09_14-05-07" "image";
         StSuccess "Generated 2 image(s)!";
         StColumns 2;
         StImage 0 (bytes_of_string "QUJD");
         StDownloadButton 0 "Download Image 1" (bytes_of_string "QUJD")
           "generated_image_1.png";
         StImage 1 (bytes_of_string "REVG");
         StDownloadButton 1 "Download Image 2" (bytes_of_string "REVG")
           "generated_image_2.png"] |}).
Proof. reflexivity. Qed.


(** *** Missing uploads (C2) *)

(** C2 fails as stated: with the required reference image missing and the
    button clicked, the rerun ends normally, shows only the standing hint of the
    page and signals no error of any kind. *)
Lemma missing_reference_signals_no_error :
  mode_of no_reference_widgets = Some SubjectVariation /\
  missing_required no_reference_widgets SubjectVariation = true /\
  generate_button no_reference_widgets = true /\
  run_script sample_world no_reference_widgets empty_session =
    (Done tt,
     {| session := {| output_directory := Some "output/2025-03-09_14-05-07";
                      generated_images := Some [] |};
        draws := 1;
        trace := [StInfo "Upload 1-3 reference images of the same subject in different poses/angles"] |}) /\
  signals_error (run_script sample_world no_reference_widgets empty_session) = false.
Proof. repeat split; reflexivity. Qed.

Lemma missing_image_sends_nothing_witness :
  mode_of no_reference_widgets = Some SubjectVariation /\
  missing_required no_reference_widgets SubjectVariation = true /\
  calls (trace (snd (run_script sample_world no_reference_widgets empty_session))) = [].
Proof.
  assert (Hm : mode_of no_reference_widgets = Some SubjectVariation) by reflexivity.
  assert (Hr : missing_required no_reference_widgets SubjectVariation = true)
    by reflexivity.
  split; [exact Hm|]. split; [exact Hr|].
  exact (proj1 (missing_image_sends_nothing sample_world no_reference_widgets
                  empty_session SubjectVariation Hm Hr)).
Defined.

(** *** The negative prompt of text-to-image (C3) *)

(** C3 at the failing input: text-to-image with the negative prompt left empty
    sends [negativeText] as an empty string. *)
Theorem simple_sends_empty_negative_text :
  negative_prompt sample_widgets = "" /\
  exists p b,
    calls (trace (snd (run_script sample_world sample_widgets empty_session))) = [p] /\
    subdict "textToImageParams" p = Some b /\
    dict_get "negativeText" b = Some (VStr "").
Proof. split; [reflexivity|]. do 2 eexists. repeat split; reflexivity. Qed.

(** The customization page, on the same input, leaves the key out. *)
Example variation_omits_empty_negative_text :
  let ui := widgets_on "Instant Customization" (Some sample_file)
              "Background Replacement" false in
  negative_prompt ui = "" /\
  exists p b,
    calls (trace (snd (run_script sample_world ui empty_session))) = [p] /\
    subdict "imageVariationParams" p = Some b /\
    dict_in "negativeText" b = false.
Proof. split; [reflexivity|]. do 2 eexists. repeat split; reflexivity. Qed.

(** *** The generation config of background replacement (C4) *)

(** C4 fails as stated: the generation config of a background replacement has
    neither width nor height. *)
Lemma outpainting_config_has_no_size :
  mode_of outpainting_widgets = Some (BackgroundEdit Replace) /\
  exists p cfg,
    calls (trace (snd (run_script sample_world outpainting_widgets empty_session))) = [p] /\
    generation_config p = Some cfg /\
    dict_keys cfg = ["numberOfImages"; "quality"; "cfgScale"; "seed"] /\
    dict_in "width" cfg = false /\
    dict_in "height" cfg = false.
Proof. split; [reflexivity|]. do 2 eexists. repeat split; reflexivity. Qed.

Lemma generation_config_parameters_witness :
  In outpainting_request
     (calls (trace (snd (run_script sample_world outpainting_widgets empty_session)))) /\
  exists m,
    mode_of outpainting_widgets = Some m /\
    match m with
    | BackgroundEdit Remove =>
        generation_config outpainting_request = None /\
        has_key "imageGenerationConfig" outpainting_request = false
    | BackgroundEdit Replace =>
        generation_config outpainting_request =
          Some [("numberOfImages", VInt (num_images outpainting_widgets));
                ("quality", VStr (quality outpainting_widgets));
                ("cfgScale", VFloat (cfg_scale outpainting_widgets));
                ("seed", VInt (seed_used sample_world outpainting_widgets))]
    | _ =>
        generation_config outpainting_request =
          Some [("numberOfImages", VInt (num_images outpainting_widgets));
                ("quality", VStr (quality outpainting_widgets));
                ("width", VInt (width outpainting_widgets));
                ("height", VInt (height outpainting_widgets));
                ("cfgScale", VFloat (cfg_scale outpainting_widgets));
                ("seed", VInt (seed_used sample_world outpainting_widgets))]
    end.
Proof.
  assert (Hin : In outpainting_request
                  (calls (trace (snd (run_script sample_world outpainting_widgets
                                        empty_session)))))
    by (left; reflexivity).
  split; [exact Hin|].
  exact (generation_config_parameters sample_world outpainting_widgets empty_session
           outpainting_request Hin).
Defined.

(** *** Seeds (C5) *)

Example random_seed_drawn :
  seed_used sample_world random_seed_widgets = 282013094.
Proof. reflexivity. Qed.

Lemma payload_seed_resolved_witness :
  0 <= seed random_seed_widgets <= 858993459 /\
  In random_seed_request
     (calls (trace (snd (run_script sample_world random_seed_widgets empty_session)))) /\
  has_key "imageGenerationConfig" random_seed_request = true /\
  exists cfg s,
    generation_config random_seed_request = Some cfg /\
    dict_get "seed" cfg = Some (VInt s) /\
    0 <= s <= 858993459 /\
    (use_random_seed random_seed_widgets = false -> s = seed random_seed_widgets) /\
    (use_random_seed random_seed_widgets = true ->
       draws (snd (run_script sample_world random_seed_widgets empty_session)) = 2%nat /\
       forall m, draws m = 1%nat -> fst (randint sample_world 0 858993459 m) = Done s).
Proof.
  assert (Hs : 0 <= seed random_seed_widgets <= 858993459) by (cbn; lia).
  assert (Hin : In random_seed_request
                  (calls (trace (snd (run_script sample_world random_seed_widgets
                                        empty_session)))))
    by (left; reflexivity).
  assert (Hk : has_key "imageGenerationConfig" random_seed_request = true)
    by reflexivity.
  split; [exact Hs|]. split; [exact Hin|]. split; [exact Hk|].
  exact (payload_seed_resolved sample_world random_seed_widgets empty_session
           random_seed_request Hs Hin Hk).
Defined.

(** *** Order of the images (C6) *)

Example sample_images_decode :
  decode_all ["QUJD"; "REVG"] = Some [bytes_of_string "QUJD"; bytes_of_string "REVG"].
Proof. reflexivity. Qed.

Lemma images_keep_service_order_witness :
  In red_bicycle_request
     (calls (trace (snd (run_script sample_world sample_widgets empty_session)))) /\
  images (generate_images sample_world red_bicycle_request) = Some ["QUJD"; "REVG"] /\
  decode_all ["QUJD"; "REVG"] = Some [bytes_of_string "QUJD"; bytes_of_string "REVG"] /\
  saves (trace (snd (run_script sample_world sample_widgets empty_session))) =
    [(["QUJD"; "REVG"], session_dir sample_world empty_session, "image")].
Proof.
  assert (Hin : In red_bicycle_request
                  (calls (trace (snd (run_script sample_world sample_widgets
                                        empty_session)))))
    by (left; reflexivity).
  assert (Hl : images (generate_images sample_world red_bicycle_request) =
               Some ["QUJD"; "REVG"]) by reflexivity.
  assert (Hd : decode_all ["QUJD"; "REVG"] =
               Some [bytes_of_string "QUJD"; bytes_of_string "REVG"]) by reflexivity.
  split; [exact Hin|]. split; [exact Hl|]. split; [exact Hd|].
  exact (proj1 (proj2 (proj2
           (images_keep_service_order sample_world sample_widgets empty_session
              red_bicycle_request _ _ Hin Hl Hd)))).
Defined.

(** *** One directory per session (C7) *)

(** Two reruns of one session, more than a minute apart: both use the directory
    named after the first. *)
Example two_reruns_one_directory :
  map (fun r => (output_directory (session (snd r)), directories (trace (snd r))))
      (run_session [(sample_world, sample_widgets); (failing_world, sample_widgets)]
         empty_session) =
  [(Some "output/2025-03-09_14-05-07",
    ["output/2025-03-09_14-05-07"; "output/2025-03-09_14-05-07"]);
   (Some "output/2025-03-09_14-05-07", ["output/2025-03-09_14-05-07"])].
Proof. reflexivity. Qed.

(** *** A failed call (C8) *)

Lemma failed_call_keeps_images_witness :
  In failing_request
     (calls (trace (snd (run_script failing_world sample_widgets session_with_images)))) /\
  images (generate_images failing_world failing_request) = None /\
  generated_images
    (session (snd (run_script failing_world sample_widgets session_with_images))) =
    Some ["QUJD"; "REVG"].
Proof.
  assert (Hin : In failing_request
                  (calls (trace (snd (run_script failing_world sample_widgets
                                        session_with_images)))))
    by (left; reflexivity).
  split; [exact Hin|]. split; [reflexivity|].
  exact (proj1 (failed_call_keeps_images failing_world sample_widgets
                  session_with_images failing_request Hin)).
Defined.

(** *** Image-guided generation (C9) *)



(** *** Colours (C10) *)

Lemma color_guided_sends_five_colors_witness :
  In color_guided_request
     (calls (trace (snd (run_script sample_world color_guided_widgets empty_session)))) /\
  mode_of color_guided_widgets = Some ColorGuided /\
  exists b cs,
    subdict "colorGuidedGenerationParams" color_guided_request = Some b /\
    dict_get "colors" b = Some (VList cs) /\
    List.length cs = 5%nat /\
    cs = map VStr [color1 color_guided_widgets; color2 color_guided_widgets;
                   color3 color_guided_widgets; color4 color_guided_widgets;
                   color5 color_guided_widgets].
Proof.
  assert (Hin : In color_guided_request
                  (calls (trace (snd (run_script sample_world color_guided_widgets
                                        empty_session)))))
    by (left; reflexivity).
  assert (Hm : mode_of color_guided_widgets = Some ColorGuided) by reflexivity.
  split; [exact Hin|]. split; [exact Hm|].
  exact (color_guided_sends_five_colors sample_world color_guided_widgets
           empty_session color_guided_request Hin Hm).
Defined.

(** * Further properties *)

(** ** [encode_image_to_base64] *)

Lemma list_ind3 {A} (P : list A -> Prop) :
  P [] -> (forall a, P [a]) -> (forall a b, P [a; b]) ->
  (forall a b c l, P l -> P (a :: b :: c :: l)) ->
  forall l, P l.
Proof.
  intros H0 H1 H2 H3.
  assert (Hall : forall l, P l /\ (forall a, P (a :: l)) /\ (forall a b, P (a :: b :: l))).
  { induction l as [|x l (IH0 & IH1 & IH2)]; [auto|].
    split; [apply IH1|]. split; [intros a; apply IH2|].
    intros a b. apply H3. exact IH0. }
  intros l. apply Hall.
Qed.

Lemma byte_to_N_bound (b : byte) : (Byte.to_N b < 256)%N.
Proof. destruct b; reflexivity. Qed.

Lemma b64_char_value (n : N) :
  (n < 64)%N ->
  b64_value (b64_char n) = n /\ Ascii.eqb (b64_char n) "="%char = false /\
  is_b64_char (b64_char n) = true.
Proof.
  intros Hn.
  assert (Hc : In n (map N.of_nat (seq 0 64))).
  { apply in_map_iff. exists (N.to_nat n). split; [lia|].
    apply in_seq. lia. }
  cbv [seq map] in Hc.
  repeat (destruct Hc as [<-|Hc]; [repeat split; reflexivity|]).
  destruct Hc.
Qed.

Lemma byte_of_to_N (b : byte) : byte_of_N (Byte.to_N b) = b.
Proof. unfold byte_of_N. now rewrite Byte.of_to_N. Qed.

Lemma b64_sextets (n : N) :
  (n < 16777216)%N ->
  (n / 262144 < 64)%N /\ ((n / 4096) mod 64 < 64)%N /\
  ((n / 64) mod 64 < 64)%N /\ (n mod 64 < 64)%N /\
  (n / 262144 * 262144 + (n / 4096) mod 64 * 4096
   + (n / 64) mod 64 * 64 + n mod 64 = n)%N.
Proof.
  intros Hn.
  replace (n / 262144)%N with (n / 64 / 64 / 64)%N
    by (rewrite !N.Div0.div_div; reflexivity).
  replace (n / 4096)%N with (n / 64 / 64)%N
    by (rewrite !N.Div0.div_div; reflexivity).
  split; [repeat (apply N.Div0.div_lt_upper_bound); lia|].
  do 3 (split; [apply N.mod_lt; lia|]).
  pose proof (N.div_mod n 64). pose proof (N.div_mod (n / 64) 64).
  pose proof (N.div_mod (n / 64 / 64) 64).
  lia.
Qed.

Lemma b64_octets (a b c : N) :
  (a < 256)%N -> (b < 256)%N -> (c < 256)%N ->
  let n := (a * 65536 + b * 256 + c)%N in
  (n < 16777216)%N /\ (n / 65536 = a)%N /\ ((n / 256) mod 256 = b)%N /\
  (n mod 256 = c)%N.
Proof.
  intros Ha Hb Hc n. subst n.
  split; [lia|].
  split; [symmetry; apply (N.div_unique _ _ _ (b * 256 + c)); lia|].
  split.
  - replace ((a * 65536 + b * 256 + c) / 256)%N with (a * 256 + b)%N
      by (apply (N.div_unique _ _ _ c); lia).
    symmetry. apply (N.mod_unique _ _ a); lia.
  - symmetry. apply (N.mod_unique _ _ (a * 256 + b)); lia.
Qed.

(** [b64_unpack] undoes [b64encode]. *)
Lemma b64_unpack_encode (bs : list byte) : b64_unpack (b64encode bs) = bs.
Proof.
  induction bs as [|a|a b|a b c rest IH] using list_ind3; [reflexivity| | |].
  - pose proof (byte_to_N_bound a) as Ha.
    cbn [b64encode b64_unpack]. cbv zeta.
    set (n := (Byte.to_N a * 65536)%N).
    destruct (b64_octets (Byte.to_N a) 0 0 Ha eq_refl eq_refl) as (Hn & H1 & _ & _).
    cbn zeta in Hn, H1. rewrite !N.add_0_r in Hn, H1. fold n in Hn, H1.
    destruct (b64_sextets n Hn) as (Q1 & Q2 & Q3 & Q4 & Hsum).
    destruct (b64_char_value _ Q1) as (V1 & _ & _).
    destruct (b64_char_value _ Q2) as (V2 & _ & _).
    rewrite V1, V2.
    change (Ascii.eqb "="%char "="%char) with true. cbv iota.
    change (b64_value "="%char) with 0%N.
    assert (H4 : (n mod 64 = 0)%N)
      by (symmetry; apply (N.mod_unique _ _ (Byte.to_N a * 1024)); subst n; lia).
    assert (H3 : ((n / 64) mod 64 = 0)%N).
    { replace (n / 64)%N with (Byte.to_N a * 1024)%N
        by (apply (N.div_unique _ _ _ 0); subst n; lia).
      symmetry. apply (N.mod_unique _ _ (Byte.to_N a * 16)); lia. }
    replace (n / 262144 * 262144 + (n / 4096) mod 64 * 4096 + 0 * 64 + 0)%N with n
      by lia.
    now rewrite H1, byte_of_to_N.
  - pose proof (byte_to_N_bound a) as Ha. pose proof (byte_to_N_bound b) as Hb.
    cbn [b64encode b64_unpack]. cbv zeta.
    set (n := (Byte.to_N a * 65536 + Byte.to_N b * 256)%N).
    destruct (b64_octets (Byte.to_N a) (Byte.to_N b) 0 Ha Hb eq_refl)
      as (Hn & H1 & H2 & _).
    cbn zeta in Hn, H1, H2. rewrite !N.add_0_r in Hn, H1, H2. fold n in Hn, H1, H2.
    destruct (b64_sextets n Hn) as (Q1 & Q2 & Q3 & Q4 & Hsum).
    destruct (b64_char_value _ Q1) as (V1 & _ & _).
    destruct (b64_char_value _ Q2) as (V2 & _ & _).
    destruct (b64_char_value _ Q3) as (V3 & E3 & _).
    rewrite V1, V2, V3, E3.
    change (Ascii.eqb "="%char "="%char) with true. cbv iota.
    change (b64_value "="%char) with 0%N.
    assert (H4 : (n mod 64 = 0)%N)
      by (symmetry;
          apply (N.mod_unique _ _ (Byte.to_N a * 1024 + Byte.to_N b * 4));
          subst n; lia).
    replace (n / 262144 * 262144 + (n / 4096) mod 64 * 4096
             + (n / 64) mod 64 * 64 + 0)%N with n
      by lia.
    now rewrite H1, H2, !byte_of_to_N.
  - pose proof (byte_to_N_bound a) as Ha. pose proof (byte_to_N_bound b) as Hb.
    pose proof (byte_to_N_bound c) as Hc.
    cbn [b64encode b64_unpack]. cbv zeta.
    set (n := (Byte.to_N a * 65536 + Byte.to_N b * 256 + Byte.to_N c)%N).
    destruct (b64_octets (Byte.to_N a) (Byte.to_N b) (Byte.to_N c) Ha Hb Hc)
      as (Hn & H1 & H2 & H3).
    cbn zeta in Hn, H1, H2, H3. fold n in Hn, H1, H2, H3.
    destruct (b64_sextets n Hn) as (Q1 & Q2 & Q3 & Q4 & Hsum).
    destruct (b64_char_value _ Q1) as (V1 & _ & _).
    destruct (b64_char_value _ Q2) as (V2 & _ & _).
    destruct (b64_char_value _ Q3) as (V3 & E3 & _).
    destruct (b64_char_value _ Q4) as (V4 & E4 & _).
    rewrite V1, V2, V3, V4, E3, E4, Hsum, H1, H2, H3, !byte_of_to_N, IH.
    reflexivity.
Qed.

(** X1: [encode_image_to_base64] loses nothing: two uploads (or absent uploads)
    with the same encoding have the same bytes. *)
Theorem encode_image_to_base64_injective (f g : option UploadedFile) :
  encode_image_to_base64 f = encode_image_to_base64 g ->
  option_map getvalue f = option_map getvalue g.
Proof.
  destruct f as [f|], g as [g|]; cbn; intros E; try discriminate; [|reflexivity].
  injection E as E. f_equal.
  rewrite <- (b64_unpack_encode (getvalue f)), <- (b64_unpack_encode (getvalue g)).
  now rewrite E.
Qed.

Lemma encode_image_to_base64_injective_witness :
  encode_image_to_base64 (Some sample_file) =
    encode_image_to_base64 (Some {| file_name := "copy.png"; getvalue := getvalue sample_file |}) /\
  option_map getvalue (Some sample_file) =
    option_map getvalue (Some {| file_name := "copy.png"; getvalue := getvalue sample_file |}).
Proof.
  assert (E : encode_image_to_base64 (Some sample_file) =
              encode_image_to_base64
                (Some {| file_name := "copy.png"; getvalue := getvalue sample_file |}))
    by reflexivity.
  split; [exact E|].
  exact (encode_image_to_base64_injective _ _ E).
Defined.

Lemma b64encode_length (bs : list byte) :
  String.length (b64encode bs) = (4 * ((List.length bs + 2) / 3))%nat.
Proof.
  induction bs as [|a|a b|a b c rest IH] using list_ind3; try reflexivity.
  cbn [b64encode String.length List.length]. cbv zeta. cbn [String.length]. rewrite IH.
  replace (S (S (S (List.length rest))) + 2)%nat
    with (1 * 3 + (List.length rest + 2))%nat by lia.
  rewrite Nat.div_add_l by lia. lia.
Qed.

Lemma b64encode_chars (bs : list byte) :
  forallb is_b64_char (list_ascii_of_string (b64encode bs)) = true.
Proof.
  induction bs as [|a|a b|a b c rest IH] using list_ind3; [reflexivity| | |].
  - pose proof (byte_to_N_bound a) as Ha.
    cbn [b64encode]. cbv zeta.
    destruct (b64_octets (Byte.to_N a) 0 0 Ha eq_refl eq_refl) as (Hn & _).
    cbn zeta in Hn. rewrite !N.add_0_r in Hn.
    destruct (b64_sextets _ Hn) as (Q1 & Q2 & _).
    cbn [list_ascii_of_string forallb].
    rewrite (proj2 (proj2 (b64_char_value _ Q1))), (proj2 (proj2 (b64_char_value _ Q2))).
    reflexivity.
  - pose proof (byte_to_N_bound a) as Ha. pose proof (byte_to_N_bound b) as Hb.
    cbn [b64encode]. cbv zeta.
    destruct (b64_octets (Byte.to_N a) (Byte.to_N b) 0 Ha Hb eq_refl) as (Hn & _).
    cbn zeta in Hn. rewrite !N.add_0_r in Hn.
    destruct (b64_sextets _ Hn) as (Q1 & Q2 & Q3 & _).
    cbn [list_ascii_of_string forallb].
    rewrite (proj2 (proj2 (b64_char_value _ Q1))), (proj2 (proj2 (b64_char_value _ Q2))),
      (proj2 (proj2 (b64_char_value _ Q3))).
    reflexivity.
  - pose proof (byte_to_N_bound a) as Ha. pose proof (byte_to_N_bound b) as Hb.
    pose proof (byte_to_N_bound c) as Hc.
    cbn [b64encode]. cbv zeta.
    destruct (b64_octets _ _ _ Ha Hb Hc) as (Hn & _). cbn zeta in Hn.
    destruct (b64_sextets _ Hn) as (Q1 & Q2 & Q3 & Q4 & _).
    cbn [list_ascii_of_string forallb].
    rewrite (proj2 (proj2 (b64_char_value _ Q1))), (proj2 (proj2 (b64_char_value _ Q2))),
      (proj2 (proj2 (b64_char_value _ Q3))), (proj2 (proj2 (b64_char_value _ Q4))), IH.
    reflexivity.
Qed.

Lemma b64encode_truthy (bs : list byte) :
  str_truthy (b64encode bs) = match bs with [] => false | _ => true end.
Proof. destruct bs as [|a [|b [|c rest]]]; reflexivity. Qed.

(** X2: The encoding of an upload of [n] bytes has [4 * ceil(n / 3)] characters,
    all of them from the base64 alphabet or the padding character; it is the
    empty string exactly when the upload is empty. *)
Theorem encode_image_to_base64_shape (f : UploadedFile) :
  exists s,
    encode_image_to_base64 (Some f) = Some s /\
    String.length s = (4 * ((List.length (getvalue f) + 2) / 3))%nat /\
    forallb is_b64_char (list_ascii_of_string s) = true /\
    str_truthy s = has_bytes (Some f).
Proof.
  exists (b64encode (getvalue f)).
  split; [reflexivity|]. split; [apply b64encode_length|].
  split; [apply b64encode_chars|]. apply b64encode_truthy.
Qed.

(** ** Calls and messages of a rerun *)

Section MoreRuns.
Context `{Imaging}.

Lemma generators_app (t1 t2 : list event) :
  generators (t1 ++ t2) = (generators t1 ++ generators t2)%list.
Proof. apply flat_map_app. Qed.

Lemma generators_display d : forallb is_display_event d = true -> generators d = [].
Proof. intros Hd. display_only d Hd IH. Qed.

Lemma generators_page_info ui : generators (page_info ui) = [].
Proof. page_info_cases ui. Qed.

Lemma statuses_app (t1 t2 : list event) :
  statuses (t1 ++ t2) = (statuses t1 ++ statuses t2)%list.
Proof. apply filter_app. Qed.

Lemma statuses_display d : forallb is_display_event d = true -> statuses d = [].
Proof. intros Hd. display_only d Hd IH. Qed.

Lemma statuses_page_info ui : statuses (page_info ui) = [].
Proof. page_info_cases ui. Qed.

Lemma has_config_assemble w ui m :
  has_key "imageGenerationConfig" (VDict (assemble w ui m)) =
  match m with BackgroundEdit Remove => false | _ => true end.
Proof. destruct m as [| | | |[|]]; payload_cases; reflexivity. Qed.

(** X3: A rerun sends at most one request, through a generator created for it, and
    only in answer to the button of the page, with the required image present. *)
Theorem one_call_per_click w ui ss :
  let t := trace (snd (run_script w ui ss)) in
  (List.length (calls t) <= 1)%nat /\
  List.length (generators t) = List.length (calls t) /\
  forall p, In p (calls t) ->
    exists m, mode_of ui = Some m /\ clicked ui m = true /\
              missing_required ui m = false.
Proof.
  intros t. subst t. split; [|split].
  - rewrite calls_run_script. destruct (request w ui); cbn; lia.
  - rewrite calls_run_script, trace_run_script. unfold summary_trace.
    rewrite !generators_app, generators_page_info,
      (generators_display _ (display_tail_events w ui ss)), app_nil_r.
    unfold request_events. destruct (request w ui); [|reflexivity].
    destruct (images _); [|reflexivity].
    destruct (save_base64_images _ _ _); reflexivity.
  - intros p Hp. destruct (sent_request _ _ _ _ Hp) as (m & Hm & Hr & Hc & _).
    exists m. auto.
Qed.

(** X4: The messages of a rerun tell how its call went: one error message when
    the response has no images; one success message, with the number of images
    returned (a fixed text after a background removal), when the response has
    images and the sink has taken them; no message when the sink fails on them,
    which ends the rerun, or when nothing was sent. *)
Theorem status_follows_call w ui ss :
  let t := trace (snd (run_script w ui ss)) in
  statuses t =
    match calls t with
    | [] => []
    | p :: _ =>
        match images (generate_images w p) with
        | Some l =>
            match save_base64_images l (session_dir w ss) "image" with
            | Some _ =>
                [StSuccess
                   match task_type p with
                   | Some "BACKGROUND_REMOVAL" => "Background removed successfully!"
                   | _ => "Generated " ++ string_of_nat (List.length l) ++ " image(s)!"
                   end]
            | None => []
            end
        | None =>
            [StError
               match task_type p with
               | Some "BACKGROUND_REMOVAL" =>
                   "Failed to remove background. Check the logs for details."
               | _ => "Failed to generate images. Check the logs for details."
               end]
        end
    end.
Proof.
  intros t. subst t.
  rewrite calls_run_script, trace_run_script. unfold summary_trace.
  rewrite !statuses_app, statuses_page_info,
    (statuses_display _ (display_tail_events w ui ss)), app_nil_r.
  cbn [app]. unfold request_events, request, success_msg, failure_msg.
  destruct (mode_of ui) as [m|]; [|reflexivity].
  destruct (negb (missing_required ui m) && clicked ui m); [|reflexivity].
  destruct (images (generate_images w (VDict (assemble w ui m)))) as [l|];
    [destruct (save_base64_images l (session_dir w ss) "image")|];
    destruct m as [| | | |[|]]; payload_cases; reflexivity.
Qed.

(** X5: A rerun in which nothing is sent leaves an initialised session state
    exactly as it was. *)
Theorem idle_rerun_keeps_session w ui ss dir l :
  output_directory ss = Some dir ->
  generated_images ss = Some l ->
  calls (trace (snd (run_script w ui ss))) = [] ->
  session (snd (run_script w ui ss)) = ss.
Proof.
  intros Hd Hl Hc. rewrite calls_run_script in Hc.
  rewrite session_run_script.
  unfold summary_session, session_dir, stored_after, stored_before.
  destruct (request w ui); [discriminate|].
  rewrite Hd, Hl. destruct ss; cbn in *. congruence.
Qed.

(** X6: The numbers a rerun takes from the random generator: one for the default
    of the seed input, and a second one only for the seed of a request that is
    sent with the random seed switched on and has a generation config. *)
Theorem draws_per_rerun w ui ss :
  let r := run_script w ui ss in
  draws (snd r) =
    match calls (trace (snd r)) with
    | [] => 1%nat
    | p :: _ =>
        if use_random_seed ui && has_key "imageGenerationConfig" p then 2%nat else 1%nat
    end.
Proof.
  intros r. subst r. rewrite calls_run_script, run_script_summary.
  unfold summary, summary_draws, request. cbn [snd draws].
  destruct (mode_of ui) as [m|]; [|reflexivity].
  destruct (negb (missing_required ui m) && clicked ui m); [|reflexivity].
  cbn iota. rewrite has_config_assemble.
  destruct m as [| | | |[|]]; destruct (use_random_seed ui); reflexivity.
Qed.

End MoreRuns.

Lemma idle_rerun_keeps_session_witness :
  output_directory session_with_images = Some "output/2025-03-09_14-05-07" /\
  generated_images session_with_images = Some ["QUJD"; "REVG"] /\
  calls (trace (snd (run_script failing_world (idle color_guided_widgets)
                       session_with_images))) = [] /\
  session (snd (run_script failing_world (idle color_guided_widgets)
                  session_with_images)) = session_with_images.
Proof.
  assert (Hc : calls (trace (snd (run_script failing_world (idle color_guided_widgets)
                                    session_with_images))) = []) by reflexivity.
  split; [reflexivity|]. split; [reflexivity|]. split; [exact Hc|].
  exact (idle_rerun_keeps_session failing_world (idle color_guided_widgets)
           session_with_images _ _ eq_refl eq_refl Hc).
Defined.

(** ** Contents of the requests *)

Section MorePayloads.
Context `{Imaging}.


Lemma encode_references_supplied slots :
  encode_references slots = map (fun f => VStr (b64encode (getvalue f))) (supplied slots).
Proof.
  induction slots as [|[f|] slots IH]; cbn; [reflexivity| |exact IH].
  f_equal. exact IH.
Qed.

(** X8: A customization request lists the encodings of the reference images that
    were uploaded, in slot order and without gaps: between one and three
    entries, the first one for the first slot. *)
Theorem variation_lists_uploaded_references w ui ss p :
  In p (calls (trace (snd (run_script w ui ss)))) ->
  mode_of ui = Some SubjectVariation ->
  let files := supplied [ref_image1 ui; ref_image2 ui; ref_image3 ui] in
  exists b,
    subdict "imageVariationParams" p = Some b /\
    dict_get "images" b = Some (VList (map (fun f => VStr (b64encode (getvalue f))) files)) /\
    (1 <= List.length files <= 3)%nat /\
    option_map Some (hd_error files) = Some (ref_image1 ui).
Proof.
  intros Hp Hm files. subst files.
  destruct (sent_request _ _ _ _ Hp) as (m' & Hm' & Hr & _ & _ & ->).
  rewrite Hm in Hm'. injection Hm' as <-.
  unfold missing_required, required_image in Hr.
  destruct (ref_image1 ui) as [f1|] eqn:E1; [|discriminate].
  unfold assemble, add_negative_text, inference_params_variation.
  rewrite encode_references_supplied, E1.
  destruct (str_truthy (negative_prompt ui));
    destruct (ref_image2 ui), (ref_image3 ui);
    eexists; (split; [reflexivity|]); (split; [reflexivity|]); cbn; split; (lia || reflexivity).
Qed.

(** X9: A customization request carries [negativeText] exactly when the negative
    prompt is not empty, and then with the prompt as typed. *)
Theorem variation_negative_text_when_typed w ui ss p :
  In p (calls (trace (snd (run_script w ui ss)))) ->
  mode_of ui = Some SubjectVariation ->
  exists b,
    subdict "imageVariationParams" p = Some b /\
    dict_get "negativeText" b =
      (if str_truthy (negative_prompt ui) then Some (VStr (negative_prompt ui)) else None).
Proof.
  intros Hp Hm.
  destruct (sent_request _ _ _ _ Hp) as (m' & Hm' & _ & _ & _ & ->).
  rewrite Hm in Hm'. injection Hm' as <-.
  unfold assemble, add_negative_text.
  destruct (str_truthy (negative_prompt ui)); eexists; split; reflexivity.
Qed.

Lemma no_none_references slots : forallb no_none (encode_references slots) = true.
Proof.
  rewrite encode_references_supplied.
  induction (supplied slots) as [|f l IH]; [reflexivity|exact IH].
Qed.

(** X10: No request that is sent contains [None], at any depth: every image field
    holds the encoding of an upload that is present. *)
Theorem request_has_no_none w ui ss p :
  In p (calls (trace (snd (run_script w ui ss)))) -> no_none p = true.
Proof.
  intros Hp.
  destruct (sent_request _ _ _ _ Hp) as (m & _ & Hr & _ & _ & ->).
  unfold missing_required, required_image in Hr.
  destruct m as [| | | |[|]].
  - reflexivity.
  - unfold assemble, add_reference_image, reference_image_base64.
    destruct (reference_image ui) as [f|]; [|reflexivity].
    cbn [encode_image_to_base64]. destruct (str_truthy _); reflexivity.
  - destruct (conditioning_image ui) as [f|] eqn:E; [|discriminate].
    unfold assemble, inference_params_guided. rewrite E. reflexivity.
  - unfold assemble, add_negative_text, inference_params_variation.
    pose proof (no_none_references [ref_image1 ui; ref_image2 ui; ref_image3 ui]) as Hl.
    revert Hl.
    generalize (encode_references [ref_image1 ui; ref_image2 ui; ref_image3 ui]).
    intros l Hl.
    destruct (str_truthy (negative_prompt ui)); cbn; rewrite Hl; reflexivity.
  - destruct (source_image ui) as [f|] eqn:E; [|discriminate].
    unfold assemble, inference_params_outpainting. rewrite E. reflexivity.
  - destruct (source_image ui) as [f|] eqn:E; [|discriminate].
    unfold assemble, inference_params_removal. rewrite E. reflexivity.
Qed.

(** X11: The image a mode requires reaches the service intact: the request holds
    its encoding under [conditionImage] (image-guided) or [image] (background
    replacement and removal), and reading the encoding back gives the bytes of
    the upload. *)
Theorem required_image_sent_intact w ui ss p m :
  In p (calls (trace (snd (run_script w ui ss)))) ->
  mode_of ui = Some m ->
  m = ImageGuided \/ (exists op, m = BackgroundEdit op) ->
  exists block b f s,
    params_block_of (task_tag m) params_blocks = Some block /\
    subdict block p = Some b /\
    required_image ui m = Some (Some f) /\
    dict_get (match m with ImageGuided => "conditionImage" | _ => "image" end) b
      = Some (VStr s) /\
    b64_unpack s = getvalue f.
Proof.
  intros Hp Hm Hcase.
  destruct (sent_request _ _ _ _ Hp) as (m' & Hm' & Hr & _ & _ & ->).
  rewrite Hm in Hm'. injection Hm' as <-.
  unfold missing_required in Hr.
  destruct Hcase as [-> | [[|] ->]]; cbn [required_image] in Hr |- *.
  - destruct (conditioning_image ui) as [f|] eqn:E; [|discriminate].
    unfold assemble, inference_params_guided. rewrite E.
    do 4 eexists. repeat split; try reflexivity. apply b64_unpack_encode.
  - destruct (source_image ui) as [f|] eqn:E; [|discriminate].
    unfold assemble, inference_params_outpainting. rewrite E.
    do 4 eexists. repeat split; try reflexivity. apply b64_unpack_encode.
  - destruct (source_image ui) as [f|] eqn:E; [|discriminate].
    unfold assemble, inference_params_removal. rewrite E.
    do 4 eexists. repeat split; try reflexivity. apply b64_unpack_encode.
Qed.

(** X12: The prompt reaches the service as typed: the params block of every request
    but a background removal has the text prompt under [text]; a background
    removal sends the image and nothing else. *)
Theorem text_prompt_sent_verbatim w ui ss p :
  In p (calls (trace (snd (run_script w ui ss)))) ->
  exists m block b,
    mode_of ui = Some m /\
    params_block_of (task_tag m) params_blocks = Some block /\
    subdict block p = Some b /\
    match m with
    | BackgroundEdit Remove => dict_keys b = ["image"] /\ top_keys p = ["taskType"; block]
    | _ => dict_get "text" b = Some (VStr (text_prompt ui))
    end.
Proof.
  intros Hp.
  destruct (sent_request _ _ _ _ Hp) as (m & Hm & _ & _ & _ & ->).
  exists m.
  destruct m as [| | | |[|]]; payload_cases;
    do 2 eexists; (split; [exact Hm|]); repeat split; reflexivity.
Qed.

End MorePayloads.

(** ** The display on undecodable images, and across reruns *)

Section MoreDisplay.
Context `{Imaging}.

Lemma display_loop_stops n good : forall i imgs bad rest,
  decode_all good = Some imgs ->
  decode_image bad = None ->
  (i + List.length good + 1 <= n)%nat ->
  display_loop (seq 0 (Nat.min 3 n)) i (good ++ bad :: rest) blank =
    (Raised (decode_error bad), extend blank (tiles i imgs)).
Proof.
  induction good as [|s good IH];
    cbn [decode_all app display_loop List.length]; intros i imgs bad rest E Hbad Hn.
  - inversion E; subst imgs.
    unfold bind, of_option, emit, ret, raise.
    rewrite nth_error_seq.
    assert (Hc : (i mod 3 <? Nat.min 3 n)%nat = true)
      by (apply Nat.ltb_lt, column_in_range; lia).
    rewrite Hc. unfold decode_image in Hbad. unfold decode_error.
    destruct (b64decode bad) as [b|]; [rewrite Hbad|]; reflexivity.
  - unfold decode_image in E.
    destruct (b64decode s) as [b|] eqn:Eb; [|discriminate].
    destruct (Image_open b) as [img|] eqn:Ei; [|discriminate].
    destruct (decode_all good) as [more|] eqn:Er; [|discriminate].
    inversion E; subst imgs.
    unfold bind, of_option, emit, ret.
    rewrite nth_error_seq.
    assert (Hc : (i mod 3 <? Nat.min 3 n)%nat = true)
      by (apply Nat.ltb_lt, column_in_range; lia).
    rewrite Hc, ?Eb, ?Ei.
    cbn [fst snd session draws trace blank app Nat.add].
    rewrite display_loop_extend, (IH (S i) more bad rest eq_refl Hbad) by lia.
    reflexivity.
Qed.

(** X13: [display_generated_images] stops at the first blob that does not decode:
    the images in front of it are rendered, in order, the exception of the
    failing step is raised, and nothing behind it is rendered. *)
Theorem display_stops_at_first_bad_image good bad rest imgs m :
  decode_all good = Some imgs ->
  decode_image bad = None ->
  display_generated_images (good ++ bad :: rest) m =
    (Raised (decode_error bad),
     extend m (StColumns (Nat.min 3 (List.length (good ++ bad :: rest)))
               :: tiles 0 imgs)).
Proof.
  intros E Hbad.
  rewrite display_generated_images_extend.
  unfold display_outcome, displayed, display_generated_images.
  destruct (good ++ bad :: rest)%list as [|x l] eqn:El;
    [destruct good; discriminate|].
  rewrite <- El.
  unfold bind, emit. cbn [fst snd session draws trace blank app].
  rewrite display_loop_extend,
    (display_loop_stops _ good 0 imgs bad rest E Hbad)
    by (rewrite length_app; cbn; lia).
  reflexivity.
Qed.

Lemma decode_all_split l :
  decode_all l = None ->
  exists good bad rest imgs,
    l = (good ++ bad :: rest)%list /\ decode_all good = Some imgs /\
    decode_image bad = None.
Proof.
  induction l as [|s l IH]; cbn [decode_all]; [discriminate|].
  destruct (decode_image s) as [img|] eqn:Es.
  - destruct (decode_all l) as [imgs|] eqn:El; [discriminate|].
    intros _. destruct (IH eq_refl) as (good & bad & rest & imgs & -> & Hg & Hb).
    exists (s :: good), bad, rest, (img :: imgs).
    repeat split; [|exact Hb]. cbn [decode_all]. now rewrite Es, Hg.
  - intros _. exists [], s, l, []. repeat split. exact Es.
Qed.

Lemma display_outcome_cases l :
  display_outcome l = Done tt \/
  exists s, In s l /\ decode_image s = None /\ display_outcome l = Raised (decode_error s).
Proof.
  destruct (decode_all l) as [imgs|] eqn:E.
  - left. exact (proj1 (displayed_tiles _ _ E)).
  - right. destruct (decode_all_split _ E) as (good & bad & rest & imgs & -> & Hg & Hb).
    exists bad. split; [apply in_elt|]. split; [exact Hb|].
    unfold display_outcome.
    now rewrite (display_stops_at_first_bad_image good bad rest imgs blank Hg Hb).
Qed.

(** X14: [display_generated_images] fails only on an image that does not
    decode.  On any list it appends display widgets and nothing else to the
    page; it returns normally, or it raises the exception of the decoding step
    of one of the images of the list: the column [cols[i % 3]] it draws into
    always exists, also with fewer than three images. *)
Theorem display_fails_only_on_undecodable_image l m :
  exists d,
    forallb is_display_event d = true /\
    (display_generated_images l m = (Done tt, extend m d) \/
     exists s,
       In s l /\ decode_image s = None /\
       display_generated_images l m = (Raised (decode_error s), extend m d)).
Proof.
  rewrite display_generated_images_extend.
  exists (displayed l). split; [apply displayed_events|].
  destruct (display_outcome_cases l) as [Ho | (s & Hs & Hd & Ho)].
  - left. now rewrite Ho.
  - right. exists s. rewrite Ho. auto.
Qed.

(** X15: The images of a response are stored and handed to the sink before any of
    them is decoded: this holds whether or not they decode. *)
Theorem response_saved_before_display w ui ss p l :
  In p (calls (trace (snd (run_script w ui ss)))) ->
  images (generate_images w p) = Some l ->
  let r := run_script w ui ss in
  generated_images (session (snd r)) = Some l /\
  saves (trace (snd r)) = [(l, session_dir w ss, "image")] /\
  (decode_all l = None -> exists e, fst r = Raised e).
Proof.
  intros Hp Hl r. subst r.
  destruct (sent_request _ _ _ _ Hp) as (m & _ & _ & _ & Hq & ->).
  assert (Hafter : stored_after w ui ss = l)
    by (unfold stored_after; now rewrite Hq, Hl).
  split; [rewrite session_run_script; unfold summary_session; now rewrite Hafter|].
  split.
  - rewrite trace_run_script. unfold summary_trace.
    rewrite !saves_app, saves_page_info,
      (saves_display _ (display_tail_events w ui ss)).
    unfold request_events. rewrite Hq, Hl.
    destruct (save_base64_images _ _ _); reflexivity.
  - intros Hbad. rewrite outcome_run_script. unfold summary_outcome.
    destruct (sink_fails w ui ss); [exists BinasciiError; reflexivity|].
    rewrite (request_reaches_display _ _ _ Hq), Hafter.
    destruct (decode_all_split _ Hbad) as (good & bad & rest & imgs & -> & Hg & Hb).
    exists (decode_error bad). unfold display_outcome.
    now rewrite (display_stops_at_first_bad_image good bad rest imgs blank Hg Hb).
Qed.

(** X16: The stored images belong to the session, not to a page: after a rerun
    that received the images [l], a rerun on any page whose required image is
    present and whose button is not clicked renders [l] again and keeps it. *)
Theorem images_follow_to_other_page w1 ui1 w2 ui2 ss p l m :
  In p (calls (trace (snd (run_script w1 ui1 ss)))) ->
  images (generate_images w1 p) = Some l ->
  mode_of ui2 = Some m ->
  missing_required ui2 m = false ->
  clicked ui2 m = false ->
  let r2 := run_script w2 ui2 (session (snd (run_script w1 ui1 ss))) in
  filter is_display_event (trace (snd r2)) = displayed l /\
  calls (trace (snd r2)) = [] /\
  generated_images (session (snd r2)) = Some l.
Proof.
  intros Hp Hl Hm Hr Hc r2. subst r2.
  pose proof (failed_call_keeps_images w1 ui1 ss p Hp) as H1.
  cbv zeta in H1. rewrite Hl in H1.
  set (s1 := session (snd (run_script w1 ui1 ss))) in *.
  assert (Hq : request w2 ui2 = None)
    by (unfold request; rewrite Hm, Hr, Hc; reflexivity).
  assert (Hshow : reaches_display ui2 = true).
  { unfold reaches_display. rewrite Hm.
    destruct m as [| | | |op]; try reflexivity; now rewrite Hr. }
  assert (Hafter : stored_after w2 ui2 s1 = l)
    by (unfold stored_after, stored_before; now rewrite Hq, H1).
  split; [|split].
  - rewrite trace_run_script.
    unfold summary_trace, request_events, display_tail, sink_fails.
    rewrite Hq, Hshow, Hafter, !filter_app, filter_display_page_info.
    cbn [negb andb]. rewrite (filter_display _ (displayed_events _)).
    reflexivity.
  - rewrite calls_run_script. now rewrite Hq.
  - rewrite session_run_script. unfold summary_session. now rewrite Hafter.
Qed.

End MoreDisplay.

(** ** The further properties at concrete inputs *)


Lemma variation_lists_uploaded_references_witness :
  In variation_request
     (calls (trace (snd (run_script sample_world variation_widgets empty_session)))) /\
  mode_of variation_widgets = Some SubjectVariation /\
  exists b,
    subdict "imageVariationParams" variation_request = Some b /\
    dict_get "images" b = Some (VList [VStr "TWFu"]).
Proof.
  assert (Hin : In variation_request
                  (calls (trace (snd (run_script sample_world variation_widgets
                                        empty_session)))))
    by (left; reflexivity).
  assert (Hm : mode_of variation_widgets = Some SubjectVariation) by reflexivity.
  split; [exact Hin|]. split; [exact Hm|].
  destruct (variation_lists_uploaded_references sample_world variation_widgets
              empty_session variation_request Hin Hm) as (b & Hb & Hi & _).
  exists b. split; [exact Hb|exact Hi].
Defined.

Lemma variation_negative_text_when_typed_witness :
  In variation_request
     (calls (trace (snd (run_script sample_world variation_widgets empty_session)))) /\
  mode_of variation_widgets = Some SubjectVariation /\
  exists b,
    subdict "imageVariationParams" variation_request = Some b /\
    dict_get "negativeText" b = None.
Proof.
  assert (Hin : In variation_request
                  (calls (trace (snd (run_script sample_world variation_widgets
                                        empty_session)))))
    by (left; reflexivity).
  assert (Hm : mode_of variation_widgets = Some SubjectVariation) by reflexivity.
  split; [exact Hin|]. split; [exact Hm|].
  exact (variation_negative_text_when_typed sample_world variation_widgets
           empty_session variation_request Hin Hm).
Defined.

Lemma request_has_no_none_witness :
  In image_guided_request
     (calls (trace (snd (run_script sample_world image_guided_widgets empty_session)))) /\
  no_none image_guided_request = true.
Proof.
  assert (Hin : In image_guided_request
                  (calls (trace (snd (run_script sample_world image_guided_widgets
                                        empty_session)))))
    by (left; reflexivity).
  split; [exact Hin|].
  exact (request_has_no_none sample_world image_guided_widgets empty_session
           image_guided_request Hin).
Defined.

Lemma required_image_sent_intact_witness :
  In outpainting_request
     (calls (trace (snd (run_script sample_world outpainting_widgets empty_session)))) /\
  mode_of outpainting_widgets = Some (BackgroundEdit Replace) /\
  exists block b f s,
    params_block_of (task_tag (BackgroundEdit Replace)) params_blocks = Some block /\
    subdict block outpainting_request = Some b /\
    required_image outpainting_widgets (BackgroundEdit Replace) = Some (Some f) /\
    dict_get "image" b = Some (VStr s) /\
    b64_unpack s = getvalue f.
Proof.
  assert (Hin : In outpainting_request
                  (calls (trace (snd (run_script sample_world outpainting_widgets
                                        empty_session)))))
    by (left; reflexivity).
  assert (Hm : mode_of outpainting_widgets = Some (BackgroundEdit Replace))
    by reflexivity.
  split; [exact Hin|]. split; [exact Hm|].
  exact (required_image_sent_intact sample_world outpainting_widgets empty_session
           outpainting_request (BackgroundEdit Replace) Hin Hm
           (or_intror (ex_intro _ Replace eq_refl))).
Defined.

Lemma text_prompt_sent_verbatim_witness :
  In outpainting_request
     (calls (trace (snd (run_script sample_world outpainting_widgets empty_session)))) /\
  exists m block b,
    mode_of outpainting_widgets = Some m /\
    params_block_of (task_tag m) params_blocks = Some block /\
    subdict block outpainting_request = Some b /\
    match m with
    | BackgroundEdit Remove =>
        dict_keys b = ["image"] /\ top_keys outpainting_request = ["taskType"; block]
    | _ => dict_get "text" b = Some (VStr (text_prompt outpainting_widgets))
    end.
Proof.
  assert (Hin : In outpainting_request
                  (calls (trace (snd (run_script sample_world outpainting_widgets
                                        empty_session)))))
    by (left; reflexivity).
  split; [exact Hin|].
  exact (text_prompt_sent_verbatim sample_world outpainting_widgets empty_session
           outpainting_request Hin).
Defined.

Lemma display_stops_at_first_bad_image_witness :
  decode_all ["QUJD"] = Some [bytes_of_string "QUJD"] /\
  decode_image "" = None /\
  display_generated_images (["QUJD"] ++ "" :: ["REVG"]) blank =
    (Raised UnidentifiedImageError,
     extend blank [StColumns 3;
                   StImage 0 (bytes_of_string "QUJD");
                   StDownloadButton 0 "Download Image 1" (bytes_of_string "QUJD")
                     "generated_image_1.png"]).
Proof.
  assert (Hg : decode_all ["QUJD"] = Some [bytes_of_string "QUJD"]) by reflexivity.
  assert (Hb : decode_image "" = None) by reflexivity.
  split; [exact Hg|]. split; [exact Hb|].
  exact (display_stops_at_first_bad_image ["QUJD"] "" ["REVG"] _ blank Hg Hb).
Defined.

Lemma response_saved_before_display_witness :
  In broken_request
     (calls (trace (snd (run_script broken_world sample_widgets empty_session)))) /\
  images (generate_images broken_world broken_request) = Some ["QUJD"; ""; "REVG"] /\
  decode_all ["QUJD"; ""; "REVG"] = None /\
  generated_images (session (snd (run_script broken_world sample_widgets empty_session)))
    = Some ["QUJD"; ""; "REVG"] /\
  saves (trace (snd (run_script broken_world sample_widgets empty_session))) =
    [(["QUJD"; ""; "REVG"], session_dir broken_world empty_session, "image")].
Proof.
  assert (Hin : In broken_request
                  (calls (trace (snd (run_script broken_world sample_widgets
                                        empty_session)))))
    by (left; reflexivity).
  assert (Hl : images (generate_images broken_world broken_request) =
               Some ["QUJD"; ""; "REVG"]) by reflexivity.
  split; [exact Hin|]. split; [exact Hl|]. split; [reflexivity|].
  destruct (response_saved_before_display broken_world sample_widgets empty_session
              broken_request _ Hin Hl) as (Hs & Hv & _).
  split; [exact Hs|exact Hv].
Defined.

Lemma images_follow_to_other_page_witness :
  In red_bicycle_request
     (calls (trace (snd (run_script sample_world sample_widgets empty_session)))) /\
  images (generate_images sample_world red_bicycle_request) = Some ["QUJD"; "REVG"] /\
  mode_of (idle color_guided_widgets) = Some ColorGuided /\
  missing_required (idle color_guided_widgets) ColorGuided = false /\
  clicked (idle color_guided_widgets) ColorGuided = false /\
  filter is_display_event
    (trace (snd (run_script failing_world (idle color_guided_widgets)
                   (session (snd (run_script sample_world sample_widgets
                                    empty_session)))))) =
    displayed ["QUJD"; "REVG"].
Proof.
  assert (Hin : In red_bicycle_request
                  (calls (trace (snd (run_script sample_world sample_widgets
                                        empty_session)))))
    by (left; reflexivity).
  assert (Hl : images (generate_images sample_world red_bicycle_request) =
               Some ["QUJD"; "REVG"]) by reflexivity.
  assert (Hm : mode_of (idle color_guided_widgets) = Some ColorGuided) by reflexivity.
  assert (Hr : missing_required (idle color_guided_widgets) ColorGuided = false)
    by reflexivity.
  assert (Hc : clicked (idle color_guided_widgets) ColorGuided = false) by reflexivity.
  split; [exact Hin|]. split; [exact Hl|]. split; [exact Hm|].
  split; [exact Hr|]. split; [exact Hc|].
  exact (proj1 (images_follow_to_other_page sample_world sample_widgets failing_world
                  (idle color_guided_widgets) empty_session red_bicycle_request _
                  ColorGuided Hin Hl Hm Hr Hc)).
Defined.
